(** * Air-quality alert service: classifier, scan pipeline, alert routes

    A shallow embedding of the server code (services/aqiService.js,
    services/alertService.js, services/notificationService.js,
    routes/aqi.js, routes/alerts.js and the mongoose models they use),
    with the properties of the alert pipeline stated over it. *)

From Stdlib Require Import List String Bool Arith ZArith QArith Qminmax Lia Lqa.
From Stdlib Require Import Sorted Permutation.
From Stdlib Require Import Floats.SpecFloat.
Import ListNotations.
Open Scope string_scope.

(** ** JavaScript numbers

    A JS [Number] is a finite value, one of the two infinities, or NaN.
    Finite values are taken as rationals: every finite double is one, and
    the comparisons [<=], [>=], [<] of the source are exact on them.
    [+] and [/] are the binary64 operations, rounding to nearest even. *)

Inductive num : Type :=
| Fin (q : Q)
| PInf
| NInf
| NaN.

Definition num_of_Z (z : Z) : num := Fin (inject_Z z).
Coercion num_of_Z : Z >-> num.

(** [a <= b] of JavaScript: false as soon as one side is NaN. *)
Definition num_leb (a b : num) : bool :=
  match a, b with
  | NaN, _ | _, NaN => false
  | NInf, _ => true
  | _, PInf => true
  | Fin x, Fin y => Qle_bool x y
  | PInf, _ => false
  | Fin _, NInf => false
  end.

(** [a >= b] *)
Definition num_geb (a b : num) : bool := num_leb b a.

(** [a < b] *)
Definition num_ltb (a b : num) : bool :=
  match a, b with
  | NaN, _ | _, NaN => false
  | _, _ => negb (num_leb b a)
  end.

(** The binary64 value of a number.  A rational with a power-of-two
    denominator is taken with that exponent, which is exact for every
    double; another rational is not a JS number and is rounded, as the
    quotient of its two terms. *)
Definition to_binary64 (a : num) : spec_float :=
  match a with
  | Fin q =>
      let k := Z.log2 (Zpos (Qden q)) in
      if (Z.shiftl 1 k =? Zpos (Qden q))%Z
      then binary_normalize 53 1024 (Qnum q) (- k) false
      else SFdiv 53 1024 (binary_normalize 53 1024 (Qnum q) 0 false)
             (binary_normalize 53 1024 (Zpos (Qden q)) 0 false)
  | PInf => S754_infinity false
  | NInf => S754_infinity true
  | NaN => S754_nan
  end.

(** The number a binary64 value stands for, in lowest terms. *)
Definition of_binary64 (x : spec_float) : num :=
  match x with
  | S754_zero _ => Fin 0
  | S754_infinity false => PInf
  | S754_infinity true => NInf
  | S754_nan => NaN
  | S754_finite sign m e =>
      let n := if sign then Zneg m else Zpos m in
      match e with
      | Zneg k => Fin (Qred (Qmake n (Pos.shiftl 1 (Npos k))))
      | _ => Fin (inject_Z (Z.shiftl n e))
      end
  end.

(** [a + b] *)
Definition num_add (a b : num) : num :=
  of_binary64 (SFadd 53 1024 (to_binary64 a) (to_binary64 b)).

(** [a / n] where [n] is an array length. *)
Definition num_div_length (a : num) (n : nat) : num :=
  of_binary64
    (SFdiv 53 1024 (to_binary64 a) (to_binary64 (num_of_Z (Z.of_nat n)))).

(** [Math.max(a, b)] and [Math.min(a, b)]: NaN if either argument is. *)
Definition Math_max (a b : num) : num :=
  match a, b with
  | NaN, _ | _, NaN => NaN
  | _, _ => if num_leb a b then b else a
  end.

Definition Math_min (a b : num) : num :=
  match a, b with
  | NaN, _ | _, NaN => NaN
  | _, _ => if num_leb a b then a else b
  end.

(** ** services/aqiService.js: the classifier *)

Record AqiCategoryRow : Type := mkRow {
  row_max : num;
  row_category : string;
  row_color : string
}.

Definition AQI_CATEGORIES : list AqiCategoryRow :=
  [ mkRow 50%Z "Good" "#00E400";
    mkRow 100%Z "Moderate" "#FFFF00";
    mkRow 150%Z "Unhealthy for Sensitive Groups" "#FF7E00";
    mkRow 200%Z "Unhealthy" "#FF0000";
    mkRow 300%Z "Very Unhealthy" "#8F3F97";
    mkRow 500%Z "Hazardous" "#7E0023" ].

Record CategoryInfo : Type := mkInfo {
  category : string;
  color : string
}.

(** The [for (const cat of ...)] loop with its early [return]. *)
Fixpoint firstCategory (rows : list AqiCategoryRow) (aqiValue : num)
  : option CategoryInfo :=
  match rows with
  | [] => None
  | cat :: rest =>
      if num_leb aqiValue (row_max cat)
      then Some (mkInfo (row_category cat) (row_color cat))
      else firstCategory rest aqiValue
  end.

Definition getAqiCategory (aqiValue : num) : CategoryInfo :=
  match firstCategory AQI_CATEGORIES aqiValue with
  | Some info => info
  | None => mkInfo "Extreme" "#7E0023"
  end.

Definition getRecommendations (aqiCategory : string) : list string :=
  if String.eqb aqiCategory "Good" then
    ["Air quality is good. Enjoy outdoor activities."]
  else if String.eqb aqiCategory "Moderate" then
    ["Air quality is acceptable.";
     "Unusually sensitive people should consider reducing prolonged outdoor exertion."]
  else if String.eqb aqiCategory "Unhealthy for Sensitive Groups" then
    ["People with respiratory or heart disease, the elderly and children should limit prolonged outdoor exertion.";
     "Consider moving activities indoors or rescheduling."]
  else if String.eqb aqiCategory "Unhealthy" then
    ["People with respiratory or heart disease, the elderly and children should avoid prolonged outdoor exertion.";
     "Everyone should limit outdoor exertion.";
     "Consider wearing masks outdoors."]
  else if String.eqb aqiCategory "Very Unhealthy" then
    ["Everyone should avoid outdoor physical activities.";
     "People with respiratory or heart disease, the elderly and children should remain indoors.";
     "Keep windows and doors closed.";
     "Use air purifiers if available."]
  else if String.eqb aqiCategory "Hazardous" then
    ["Everyone should avoid all outdoor physical activities.";
     "Remain indoors with windows and doors closed.";
     "Use air purifiers if available.";
     "Follow evacuation orders if issued by local authorities."]
  else
    ["Avoid all outdoor activities.";
     "Remain indoors with air purifiers if available.";
     "Follow emergency instructions from local authorities."].

(** The ordered tier list of the severity categories, and the rank of a
    category name in it. *)
Definition SEVERITY_TIERS : list string :=
  [ "Good"; "Moderate"; "Unhealthy for Sensitive Groups"; "Unhealthy";
    "Very Unhealthy"; "Hazardous"; "Extreme" ].

Fixpoint index_of (s : string) (l : list string) : option nat :=
  match l with
  | [] => None
  | x :: rest =>
      if String.eqb s x then Some O
      else option_map S (index_of s rest)
  end.

Definition severityRank (c : string) : option nat := index_of c SEVERITY_TIERS.

(** ** Documents of the mongoose models *)

Definition ObjectId : Type := nat.
Definition Date : Type := Z.
Bind Scope nat_scope with ObjectId.
Bind Scope Z_scope with Date.

(** An entry of [User.locations]. *)
Record Location : Type := mkLocation {
  loc_name : string;
  loc_latitude : num;
  loc_longitude : num;
  loc_isPrimary : bool
}.

Record NotificationMethods : Type := mkMethods {
  pushNotification : bool;
  email : bool
}.

Record AlertPreferences : Type := mkPrefs {
  threshold : num;
  notificationMethods : NotificationMethods
}.

Record User : Type := mkUser {
  user_id : ObjectId;
  user_email : string;
  user_name : string;
  locations : list Location;
  alertPreferences : AlertPreferences;
  deviceTokens : list string
}.

(** The object returned by [fetchAqiData], stored as [AqiHistory.aqi]. *)
Record AqiData : Type := mkAqi {
  aqi_value : num;
  aqi_category : string;
  aqi_pollutant : string;
  aqi_source : string
}.

(** The [location] sub-document of the AqiHistory and Alert schemas:
    name, latitude and longitude only. *)
Record Place : Type := mkPlace {
  place_name : string;
  place_latitude : num;
  place_longitude : num
}.

Definition placeOf (l : Location) : Place :=
  mkPlace (loc_name l) (loc_latitude l) (loc_longitude l).

Record AqiHistory : Type := mkHistory {
  hist_id : ObjectId;
  hist_userId : ObjectId;
  hist_location : Place;
  hist_aqi : AqiData;
  recordedAt : Date
}.

(** The [aqi] sub-document of the Alert schema has no [source]. *)
Record AlertAqi : Type := mkAlertAqi {
  alert_value : num;
  alert_category : string;
  alert_pollutant : string
}.

Definition alertAqiOf (a : AqiData) : AlertAqi :=
  mkAlertAqi (aqi_value a) (aqi_category a) (aqi_pollutant a).

Record Alert : Type := mkAlert {
  alert_id : ObjectId;
  alert_userId : ObjectId;
  alert_location : Place;
  alert_aqi : AlertAqi;
  message : string;
  recommendations : list string;
  acknowledged : bool;
  createdAt : Date
}.

(** ** The outside world *)

Inductive Error : Type := MkError (msg : string).

Inductive result (A : Type) : Type :=
| Ok (a : A)
| Throw (e : Error).
Arguments Ok {A} a.
Arguments Throw {A} e.

(** Body of the provider's answer: [response.data], with its [status] and
    its [data] object ([aqi], [dominentpol]). *)
Record WaqiData : Type := mkWaqiData {
  waqi_aqi : num;
  waqi_dominentpol : string
}.

Record WaqiBody : Type := mkWaqiBody {
  waqi_status : string;
  waqi_data : option WaqiData
}.

Inductive AxiosOutcome : Type :=
| AxiosReject (e : Error)
| AxiosResolve (data : option WaqiBody).

(** The message handed to [admin.messaging().send]. *)
Record PushData : Type := mkPushData {
  data_alertId : string;
  data_aqiValue : num;
  data_category : string;
  data_location : string
}.

Record Notification : Type := mkNotification {
  title : string;
  body : string;
  data : PushData
}.

Record PushMessage : Type := mkPushMessage {
  token : string;
  notification : Notification
}.

(** How the collaborators answer during one run: the AQI provider by
    coordinates, the push transport by message; and the two conversions to
    text the templates use. *)
Record Env : Type := mkEnv {
  axiosGet : num -> num -> AxiosOutcome;
  fcmSend : PushMessage -> result string;
  numToString : num -> string;
  idToString : ObjectId -> string
}.

Inductive LogLine : Type :=
| ConsoleLog (text : string)
| ConsoleLogWith (text detail : string)
| ConsoleError (text : string) (e : Error).

(** The state the server code reads and writes: the three collections, the
    requests made to the push transport, the console, the next fresh
    ObjectId and the current time. *)
Record World : Type := mkWorld {
  users : list User;
  histories : list AqiHistory;
  alerts : list Alert;
  fcmRequests : list PushMessage;
  console : list LogLine;
  nextId : ObjectId;
  clock : Date
}.

(** ** A state and exception monad for the async functions *)

Definition M (A : Type) : Type := World -> World * result A.

Definition ret {A} (a : A) : M A := fun w => (w, Ok a).

Definition throw {A} (e : Error) : M A := fun w => (w, Throw e).

Definition bind {A B} (m : M A) (k : A -> M B) : M B :=
  fun w =>
    match m w with
    | (w', Ok a) => k a w'
    | (w', Throw e) => (w', Throw e)
    end.

Definition tryCatch {A} (m : M A) (handler : Error -> M A) : M A :=
  fun w =>
    match m w with
    | (w', Ok a) => (w', Ok a)
    | (w', Throw e) => handler e w'
    end.

Notation "x <- m ;; k" := (bind m (fun x => k))
  (at level 61, m at next level, right associativity).
Notation "m ;;; k" := (bind m (fun _ => k))
  (at level 61, right associativity).

(** [for (const x of xs) { await body(x) }] *)
Fixpoint forOf {A} (xs : list A) (body : A -> M unit) : M unit :=
  match xs with
  | [] => ret tt
  | x :: rest => body x ;;; forOf rest body
  end.

Definition console_log (text : string) : M unit :=
  fun w => (mkWorld (users w) (histories w) (alerts w) (fcmRequests w)
              (console w ++ [ConsoleLog text]) (nextId w) (clock w), Ok tt).

Definition console_log_with (text detail : string) : M unit :=
  fun w => (mkWorld (users w) (histories w) (alerts w) (fcmRequests w)
              (console w ++ [ConsoleLogWith text detail]) (nextId w) (clock w),
            Ok tt).

Definition console_error (text : string) (e : Error) : M unit :=
  fun w => (mkWorld (users w) (histories w) (alerts w) (fcmRequests w)
              (console w ++ [ConsoleError text e]) (nextId w) (clock w), Ok tt).

(** [User.find()] *)
Definition User_find : M (list User) := fun w => (w, Ok (users w)).

(** [new AqiHistory({userId, location, aqi}).save()]: a fresh [_id], and
    [recordedAt] defaulting to the current time.  Writes to the database
    are taken to succeed. *)
Definition saveAqiHistory (userId : ObjectId) (location : Location)
  (aqi : AqiData) : M AqiHistory :=
  fun w =>
    let doc := mkHistory (nextId w) userId (placeOf location) aqi (clock w) in
    (mkWorld (users w) (histories w ++ [doc]) (alerts w) (fcmRequests w)
       (console w) (S (nextId w)) (clock w), Ok doc).

(** [new Alert({userId, location, aqi, message, recommendations}).save()]:
    [acknowledged] defaults to false. *)
Definition saveAlert (userId : ObjectId) (location : Location)
  (aqi : AqiData) (msg : string) (recs : list string) : M Alert :=
  fun w =>
    let doc := mkAlert (nextId w) userId (placeOf location) (alertAqiOf aqi)
                 msg recs false (clock w) in
    (mkWorld (users w) (histories w) (alerts w ++ [doc]) (fcmRequests w)
       (console w) (S (nextId w)) (clock w), Ok doc).

(** [admin.messaging().send(message)] *)
Definition messaging_send (env : Env) (m : PushMessage) : M string :=
  fun w =>
    (mkWorld (users w) (histories w) (alerts w) (fcmRequests w ++ [m])
       (console w) (nextId w) (clock w), fcmSend env m).

(** ** services/aqiService.js: fetchAqiData *)

Definition fetchAqiData (env : Env) (latitude longitude : num) : M AqiData :=
  tryCatch
    (match axiosGet env latitude longitude with
     | AxiosReject e => throw e
     | AxiosResolve (Some response_data) =>
         if String.eqb (waqi_status response_data) "ok" then
           match waqi_data response_data with
           | Some d =>
               let aqiValue := waqi_aqi d in
               let dominantPollutant := waqi_dominentpol d in
               ret (mkAqi aqiValue (category (getAqiCategory aqiValue))
                      dominantPollutant "WAQI")
           | None =>
               throw (MkError "Cannot read properties of undefined")
           end
         else throw (MkError "Invalid data received from AQI API")
     | AxiosResolve None =>
         throw (MkError "Invalid data received from AQI API")
     end)
    (fun error =>
       console_error "Error fetching AQI data:" error ;;; throw error).

(** ** services/notificationService.js *)

Definition sendPushNotification (env : Env) (tok : string)
  (n : Notification) : M string :=
  tryCatch
    (let m := mkPushMessage tok n in
     response <- messaging_send env m ;;
     console_log_with "Successfully sent notification:" response ;;;
     ret response)
    (fun error =>
       console_error "Error sending notification:" error ;;; throw error).

(** ** services/alertService.js *)

(** The object literal handed to [sendPushNotification] for an alert. *)
Definition alertNotification (env : Env) (location : Location)
  (aqiData : AqiData) (category : string) (alert : Alert) : Notification :=
  mkNotification
    ("Air Quality Alert: " ++ category)
    ("Current AQI: " ++ numToString env (aqi_value aqiData)
     ++ " in " ++ loc_name location)
    (mkPushData (idToString env (alert_id alert))
       (aqi_value aqiData) category (loc_name location)).

(** The template string of the alert message. *)
Definition alertMessage (env : Env) (location : Location)
  (aqiData : AqiData) (category : string) : string :=
  "Air quality alert: " ++ numToString env (aqi_value aqiData)
  ++ " (" ++ category ++ ") in " ++ loc_name location.

(** Body of the inner loop of [checkAirQualityAndAlert]: one
    (user, location) pair. *)
Definition checkLocation (env : Env) (user : User) (location : Location)
  : M unit :=
  let latitude := loc_latitude location in
  let longitude := loc_longitude location in
  aqiData <- fetchAqiData env latitude longitude ;;
  saveAqiHistory (user_id user) location aqiData ;;;
  if num_geb (aqi_value aqiData) (threshold (alertPreferences user)) then
    let category := category (getAqiCategory (aqi_value aqiData)) in
    let recommendations := getRecommendations category in
    alert <- saveAlert (user_id user) location aqiData
               (alertMessage env location aqiData category)
               recommendations ;;
    (if pushNotification (notificationMethods (alertPreferences user))
        && (0 <? List.length (deviceTokens user))%nat
     then
       forOf (deviceTokens user) (fun tok =>
         sendPushNotification env tok
           (alertNotification env location aqiData category alert) ;;;
         ret tt)
     else ret tt) ;;;
    (if email (notificationMethods (alertPreferences user))
     then ret tt
     else ret tt)
  else ret tt.

Definition checkUser (env : Env) (user : User) : M unit :=
  forOf (locations user) (checkLocation env user).

Definition checkAirQualityAndAlert (env : Env) : M unit :=
  tryCatch
    (us <- User_find ;;
     forOf us (checkUser env) ;;;
     console_log "AQI check and alert process completed")
    (fun error =>
       console_error "Error checking AQI and sending alerts:" error ;;;
       throw error).

(** ** Responses of the routes: [res.status(code).json({...})] *)

Record Response (A : Type) : Type := mkResponse {
  res_status : nat;
  res_success : bool;
  res_message : option string;
  res_data : option A;
  res_error : option Error
}.
Arguments mkResponse {A}.
Arguments res_status {A}.
Arguments res_success {A}.
Arguments res_message {A}.
Arguments res_data {A}.
Arguments res_error {A}.

(** ** routes/alerts.js: PUT /:id/acknowledge *)

(** The update document [{ acknowledged: true }] applied to an Alert. *)
Definition setAcknowledged (a : Alert) : Alert :=
  mkAlert (alert_id a) (alert_userId a) (alert_location a) (alert_aqi a)
    (message a) (recommendations a) true (createdAt a).

(** The query [{ _id: alertId, userId }]. *)
Definition matchesIdAndUser (alertId userId : ObjectId) (a : Alert) : bool :=
  Nat.eqb (alert_id a) alertId && Nat.eqb (alert_userId a) userId.

(** [findOneAndUpdate(filter, update, { new: true })] on a collection: the
    first matching document is updated and returned; without a match the
    collection is left as it is and the result is null. *)
Fixpoint findOneAndUpdate (filter : Alert -> bool) (update : Alert -> Alert)
  (docs : list Alert) : list Alert * option Alert :=
  match docs with
  | [] => ([], None)
  | d :: rest =>
      if filter d then (update d :: rest, Some (update d))
      else
        let '(rest', found) := findOneAndUpdate filter update rest in
        (d :: rest', found)
  end.

Definition Alert_findOneAndUpdate (filter : Alert -> bool)
  (update : Alert -> Alert) : M (option Alert) :=
  fun w =>
    let '(docs, found) := findOneAndUpdate filter update (alerts w) in
    (mkWorld (users w) (histories w) docs (fcmRequests w) (console w)
       (nextId w) (clock w), Ok found).

Definition acknowledgeRoute (alertId userId : ObjectId)
  : M (Response Alert) :=
  tryCatch
    (found <- Alert_findOneAndUpdate (matchesIdAndUser alertId userId)
                setAcknowledged ;;
     match found with
     | None =>
         ret (mkResponse 404 false (Some "Alert not found") None None)
     | Some alert =>
         ret (mkResponse 200 true None (Some alert) None)
     end)
    (fun error =>
       console_error "Error acknowledging alert:" error ;;;
       ret (mkResponse 500 false (Some "Error acknowledging alert") None
              (Some error))).

(** ** routes/aqi.js: GET /trend *)

(** Calendar arithmetic of [Date]: [setDate(getDate() - n)],
    [setMonth(getMonth() - n)] and [setFullYear(getFullYear() - n)]. *)
Record Calendar : Type := mkCalendar {
  minusDays : Date -> Z -> Date;
  minusMonths : Date -> Z -> Date;
  minusYears : Date -> Z -> Date
}.

Definition periodStart (cal : Calendar) (period : string) (endDate : Date)
  : Date :=
  if String.eqb period "day" then minusDays cal endDate 1
  else if String.eqb period "week" then minusDays cal endDate 7
  else if String.eqb period "month" then minusMonths cal endDate 1
  else if String.eqb period "year" then minusYears cal endDate 1
  else minusDays cal endDate 7.

(** The query [{ userId, recordedAt: { $gte, $lte } }], with
    ['location.name'] added when the [location] parameter is truthy. *)
Definition trendQuery (userId : ObjectId) (location : option string)
  (startDate endDate : Date) (h : AqiHistory) : bool :=
  Nat.eqb (hist_userId h) userId
  && (startDate <=? recordedAt h)%Z && (recordedAt h <=? endDate)%Z
  && match location with
     | None => true
     | Some l =>
         if String.eqb l EmptyString then true
         else String.eqb (place_name (hist_location h)) l
     end.

(** [.sort({ recordedAt: 1 })] *)
Fixpoint insertByDate (h : AqiHistory) (sorted : list AqiHistory)
  : list AqiHistory :=
  match sorted with
  | [] => [h]
  | x :: rest =>
      if (recordedAt h <? recordedAt x)%Z then h :: x :: rest
      else x :: insertByDate h rest
  end.

Definition sortByDate (l : list AqiHistory) : list AqiHistory :=
  fold_left (fun acc h => insertByDate h acc) l [].

Definition AqiHistory_find_sorted (query : AqiHistory -> bool)
  : M (list AqiHistory) :=
  fun w => (w, Ok (sortByDate (filter query (histories w)))).

Record DataPoint : Type := mkDataPoint {
  dp_date : Date;
  dp_value : num;
  dp_category : string
}.

Record Trends : Type := mkTrends {
  averageAqi : num;
  maxAqi : num;
  minAqi : num;
  dataPoints : list DataPoint
}.

Definition initialTrends : Trends := mkTrends 0%Z 0%Z PInf [].

(** One turn of [data.forEach(point => ...)], on [totalAqi] and [trends]. *)
Definition trendStep (acc : num * Trends) (point : AqiHistory)
  : num * Trends :=
  let '(totalAqi, trends) := acc in
  let v := aqi_value (hist_aqi point) in
  (num_add totalAqi v,
   mkTrends (averageAqi trends)
     (Math_max (maxAqi trends) v)
     (Math_min (minAqi trends) v)
     (dataPoints trends
      ++ [mkDataPoint (recordedAt point) v (aqi_category (hist_aqi point))])).

Definition computeTrends (data : list AqiHistory) : Trends :=
  let trends := initialTrends in
  if (0 <? List.length data)%nat then
    let '(totalAqi, trends) := fold_left trendStep data (num_of_Z 0, trends) in
    mkTrends (num_div_length totalAqi (List.length data))
      (maxAqi trends) (minAqi trends) (dataPoints trends)
  else trends.

Definition trendRoute (cal : Calendar) (userId : ObjectId)
  (location period : option string) : M (Response Trends) :=
  tryCatch
    (fun w =>
       let period := match period with Some p => p | None => "week" end in
       let endDate := clock w in
       let startDate := periodStart cal period endDate in
       (data <- AqiHistory_find_sorted
                  (trendQuery userId location startDate endDate) ;;
        ret (mkResponse 200 true None (Some (computeTrends data)) None)) w)
    (fun error =>
       console_error "Error generating AQI trend:" error ;;;
       ret (mkResponse 500 false (Some "Error generating AQI trend") None
              (Some error))).

(** ** Vocabulary of the statements *)

(** The (user, location) pairs of a sweep, in the order of the two loops. *)
Definition pairsOf (us : list User) : list (User * Location) :=
  flat_map (fun u => map (fun l => (u, l)) (locations u)) us.

Definition checkPairs (env : Env) (ps : list (User * Location)) : M unit :=
  forOf ps (fun p => checkLocation env (fst p) (snd p)).

(** The history record and the alert written for a pair and a reading,
    with the ObjectId and the time they get. *)
Definition historyDoc (id : ObjectId) (t : Date) (u : User) (l : Location)
  (r : AqiData) : AqiHistory :=
  mkHistory id (user_id u) (placeOf l) r t.

Definition alertDoc (env : Env) (id : ObjectId) (t : Date) (u : User)
  (l : Location) (r : AqiData) : Alert :=
  let c := category (getAqiCategory (aqi_value r)) in
  mkAlert id (user_id u) (placeOf l) (alertAqiOf r)
    (alertMessage env l r c) (getRecommendations c) false t.

(** In the world [w]: the history record takes the next ObjectId, the
    alert the one after it. *)
Definition historyFor (w : World) (u : User) (l : Location) (r : AqiData)
  : AqiHistory :=
  historyDoc (nextId w) (clock w) u l r.

Definition alertFor (env : Env) (w : World) (u : User) (l : Location)
  (r : AqiData) : Alert :=
  alertDoc env (S (nextId w)) (clock w) u l r.

(** The world once the history record, then the alert, are saved. *)
Definition afterHistory (w : World) (u : User) (l : Location) (r : AqiData)
  : World :=
  mkWorld (users w) (histories w ++ [historyFor w u l r]) (alerts w)
    (fcmRequests w) (console w) (S (nextId w)) (clock w).

Definition afterAlert (env : Env) (w : World) (u : User) (l : Location)
  (r : AqiData) : World :=
  mkWorld (users w) (histories w ++ [historyFor w u l r])
    (alerts w ++ [alertFor env w u l r])
    (fcmRequests w) (console w) (S (S (nextId w))) (clock w).

(** [w'] is [w] after some saves: same users and clock, records appended
    to the two collections with ObjectIds taken from the counter.  An alert
    is always saved after the history record of its pair, hence the strict
    bound. *)
Definition extends (w w' : World) : Prop :=
  users w' = users w /\ clock w' = clock w
  /\ (nextId w <= nextId w')%nat
  /\ (exists hs,
        histories w' = (histories w ++ hs)%list
        /\ Forall (fun h => (nextId w <= hist_id h < nextId w')%nat) hs)
  /\ (exists als,
        alerts w' = (alerts w ++ als)%list
        /\ Forall (fun a => (nextId w < alert_id a < nextId w')%nat) als).

(** What a history record says, its ObjectId and date apart. *)
Definition historyContent (h : AqiHistory) : ObjectId * Place * AqiData :=
  (hist_userId h, hist_location h, hist_aqi h).

(** The request made to the push transport for that alert and a token. *)
Definition pushFor (env : Env) (w : World) (u : User) (l : Location)
  (r : AqiData) (tok : string) : PushMessage :=
  mkPushMessage tok
    (alertNotification env l r (category (getAqiCategory (aqi_value r)))
       (alertFor env w u l r)).

(** The console line [sendPushNotification] writes for a message the
    transport accepts. *)
Definition sentLine (env : Env) (m : PushMessage) : LogLine :=
  ConsoleLogWith "Successfully sent notification:"
    (match fcmSend env m with
     | Ok response => response
     | Throw _ => EmptyString
     end).

(** The collections, the id counter and the clock of two worlds agree. *)
Definition sameStore (w w' : World) : Prop :=
  users w' = users w /\ histories w' = histories w
  /\ alerts w' = alerts w /\ nextId w' = nextId w /\ clock w' = clock w.

Definition isNormal {A} (r : result A) : bool :=
  match r with Ok _ => true | Throw _ => false end.



(** The reading a provider answer yields for a location, as [fetchAqiData]
    computes it (the result does not depend on the world it runs in). *)
Definition emptyWorld : World := mkWorld [] [] [] [] [] 0%nat 0%Z.

Definition readingAt (env : Env) (l : Location) : result AqiData :=
  snd (fetchAqiData env (loc_latitude l) (loc_longitude l) emptyWorld).

(** The scheduler's wait between two sweeps. *)
Definition advanceClock (dt : Z) (w : World) : World :=
  mkWorld (users w) (histories w) (alerts w) (fcmRequests w) (console w)
    (nextId w) (clock w + dt)%Z.

Definition logError (text : string) (e : Error) (w : World) : World :=
  mkWorld (users w) (histories w) (alerts w) (fcmRequests w)
    (console w ++ [ConsoleError text e]) (nextId w) (clock w).

(** Case analysis on the six tests of the classifier, in table order. *)
Ltac split_tests v :=
  destruct (num_leb v (num_of_Z 50)) eqn:?;
  [| destruct (num_leb v (num_of_Z 100)) eqn:?;
  [| destruct (num_leb v (num_of_Z 150)) eqn:?;
  [| destruct (num_leb v (num_of_Z 200)) eqn:?;
  [| destruct (num_leb v (num_of_Z 300)) eqn:?;
  [| destruct (num_leb v (num_of_Z 500)) eqn:? ]]]]].


(** ** Sample deployments

    Concrete collaborators, users and worlds on which the statements are
    exercised. *)

Definition okAnswer (aqi : Z) : AxiosOutcome :=
  AxiosResolve
    (Some (mkWaqiBody "ok" (Some (mkWaqiData (num_of_Z aqi) "pm25")))).

(** The provider answers 120 at latitude 1, fails at latitude 2, answers 80
    at latitude 3 and 150 elsewhere; the push transport rejects the token
    "stale" and accepts the others. *)
Definition sampleEnv : Env :=
  mkEnv
    (fun latitude _ =>
       match latitude with
       | Fin q =>
           if Qeq_bool q 1 then okAnswer 120
           else if Qeq_bool q 2 then AxiosReject (MkError "timeout")
           else if Qeq_bool q 3 then okAnswer 80
           else okAnswer 150
       | _ => AxiosReject (MkError "bad coordinates")
       end)
    (fun m =>
       if String.eqb (token m) "stale"
       then Throw (MkError "registration-token-not-registered")
       else Ok "projects/aq/messages/1")
    (fun _ => "value")
    (fun _ => "id").

Definition home : Location := mkLocation "Home" 1%Z 10%Z true.
Definition depot : Location := mkLocation "Depot" 2%Z 20%Z false.
Definition garden : Location := mkLocation "Garden" 3%Z 30%Z true.
Definition park : Location := mkLocation "Park" 4%Z 40%Z false.

Definition pushOnly : AlertPreferences :=
  mkPrefs 100%Z (mkMethods true false).

Definition pushAndEmail : AlertPreferences :=
  mkPrefs 100%Z (mkMethods true true).

Definition alice : User :=
  mkUser 1 "alice@example.org" "Alice" [home; park] pushOnly
    ["tokA"; "tokB"].

Definition bob : User :=
  mkUser 2 "bob@example.org" "Bob" [depot; park] pushOnly ["tokC"].

Definition carol : User :=
  mkUser 3 "carol@example.org" "Carol" [garden] pushOnly ["tokD"].

Definition dave : User :=
  mkUser 4 "dave@example.org" "Dave" [home; park] pushAndEmail
    ["stale"; "tokB"].

Definition worldOf (us : list User) : World :=
  mkWorld us [] [] [] [] 10%nat 1000%Z.

Definition reading120 : AqiData :=
  mkAqi 120%Z "Unhealthy for Sensitive Groups" "pm25" "WAQI".
Definition reading80 : AqiData := mkAqi 80%Z "Moderate" "pm25" "WAQI".
Definition reading150 : AqiData :=
  mkAqi 150%Z "Unhealthy for Sensitive Groups" "pm25" "WAQI".

(** Carol's garden was Good (40) at the previous sweep. *)
Definition gardenBefore : AqiHistory :=
  mkHistory 5 3 (placeOf garden) (mkAqi 40%Z "Good" "pm25" "WAQI") 100%Z.

Definition carolWorld : World :=
  mkWorld [carol] [gardenBefore] [] [] [] 10%nat 1000%Z.

(** Two stored alerts of user 1. *)
Definition storedAlert1 : Alert :=
  mkAlert 21 1 (placeOf home) (mkAlertAqi 120%Z "Unhealthy for Sensitive Groups" "pm25")
    "Air quality alert: 120 (Unhealthy for Sensitive Groups) in Home"
    (getRecommendations "Unhealthy for Sensitive Groups") false 500%Z.

Definition storedAlert2 : Alert :=
  mkAlert 23 1 (placeOf park) (mkAlertAqi 150%Z "Unhealthy for Sensitive Groups" "pm25")
    "Air quality alert: 150 (Unhealthy for Sensitive Groups) in Park"
    (getRecommendations "Unhealthy for Sensitive Groups") false 500%Z.


(** Days, months and years counted in milliseconds of fixed length. *)
Definition sampleCalendar : Calendar :=
  mkCalendar
    (fun d n => (d - n * 86400000)%Z)
    (fun d n => (d - n * 2592000000)%Z)
    (fun d n => (d - n * 31536000000)%Z).

Definition historyAt (id : ObjectId) (v : Z) (c : string) (t : Date)
  : AqiHistory :=
  mkHistory id 1 (placeOf home) (mkAqi (num_of_Z v) c "pm25" "WAQI") t.

(** A week with three readings, and a week with one negative reading. *)
Definition weekWorld : World :=
  mkWorld [alice]
    [historyAt 11 40 "Good" 900000000; historyAt 12 120 "Unhealthy for Sensitive Groups" 900900000;
     historyAt 13 80 "Moderate" 901800000]
    [] [] [] 30%nat 902000000%Z.


(** ** routes/alerts.js: DELETE /:id *)




(** ** The User collection: updates by [_id] *)

(** [User.findByIdAndUpdate(userId, update, { new: true })] and
    [User.updateOne({ _id: userId }, update)]: the first user with that
    [_id] is updated; the former returns the updated document, or null. *)
Fixpoint updateById (userId : ObjectId) (update : User -> User)
  (docs : list User) : list User * option User :=
  match docs with
  | [] => ([], None)
  | d :: rest =>
      if Nat.eqb (user_id d) userId then (update d :: rest, Some (update d))
      else
        let '(rest', found) := updateById userId update rest in
        (d :: rest', found)
  end.

Definition User_findByIdAndUpdate (userId : ObjectId) (update : User -> User)
  : M (option User) :=
  fun w =>
    let '(docs, found) := updateById userId update (users w) in
    (mkWorld docs (histories w) (alerts w) (fcmRequests w) (console w)
       (nextId w) (clock w), Ok found).

Definition User_updateOne (userId : ObjectId) (update : User -> User)
  : M unit :=
  fun w =>
    (mkWorld (fst (updateById userId update (users w))) (histories w)
       (alerts w) (fcmRequests w) (console w) (nextId w) (clock w), Ok tt).

(** ** config/passport.js: the JWT strategy in front of the routes *)

(** [User.findById(payload.id)] *)
Definition User_findById (userId : ObjectId) (docs : list User)
  : option User :=
  find (fun u => Nat.eqb (user_id u) userId) docs.

(** The answer of [passport.authenticate] to a request it turns down. *)
Definition unauthorized {A} : Response A :=
  mkResponse 401 false (Some "Unauthorized") None None.

(** [passport.authenticate('jwt', { session: false })] for a request whose
    token verifies and carries the id [payloadId]: the strategy looks the
    user up; with a user the handler runs with [req.user] set to it, and
    without one ([done(null, false)]) the request is answered 401 and the
    handler does not run. *)
Definition authenticateJwt {A} (payloadId : ObjectId)
  (handler : User -> M (Response A)) : M (Response A) :=
  fun w =>
    match User_findById payloadId (users w) with
    | Some user => handler user w
    | None => (w, Ok unauthorized)
    end.

(** ** routes/auth.js: POST /register-device *)

(** [{ $addToSet: { deviceTokens: deviceToken } }] *)
Definition addToSet (x : string) (l : list string) : list string :=
  if existsb (String.eqb x) l then l else (l ++ [x])%list.

Definition addDeviceToken (deviceToken : string) (u : User) : User :=
  mkUser (user_id u) (user_email u) (user_name u) (locations u)
    (alertPreferences u) (addToSet deviceToken (deviceTokens u)).

(** The handler, with [userId] the [_id] of [req.user].  The result of the
    update is not looked at. *)
Definition registerDeviceHandler (userId : ObjectId) (deviceToken : string)
  : M (Response (list string)) :=
  tryCatch
    (User_findByIdAndUpdate userId (addDeviceToken deviceToken) ;;;
     ret (mkResponse 200 true (Some "Device token registered successfully")
            None None))
    (fun error =>
       console_error "Error registering device token:" error ;;;
       ret (mkResponse 500 false (Some "Error registering device token")
              None (Some error))).

Definition registerDeviceRoute (userId : ObjectId) (deviceToken : string)
  : M (Response (list string)) :=
  authenticateJwt userId
    (fun user => registerDeviceHandler (user_id user) deviceToken).

(** ** routes/users.js: POST /locations *)

(** The fields of [req.body] the route reads; [None] is [undefined]. *)
Record LocationBody : Type := mkLocationBody {
  body_name : option string;
  body_latitude : option num;
  body_longitude : option num;
  body_isPrimary : option bool
}.

(** Truthiness of [isPrimary], a JSON boolean or absent. *)
Definition truthyBool (b : option bool) : bool :=
  match b with
  | Some b => b
  | None => false
  end.

(** [{ $set: { 'locations.$[].isPrimary': false } }] *)
Definition clearPrimary (u : User) : User :=
  mkUser (user_id u) (user_email u) (user_name u)
    (map (fun l => mkLocation (loc_name l) (loc_latitude l)
                     (loc_longitude l) false) (locations u))
    (alertPreferences u) (deviceTokens u).

(** [{ $push: { locations: newLocation } }] *)
Definition pushLocation (newLocation : Location) (u : User) : User :=
  mkUser (user_id u) (user_email u) (user_name u)
    (locations u ++ [newLocation])%list
    (alertPreferences u) (deviceTokens u).

(** The handler, with [userId] the [_id] of [req.user].  The guard
    [!name || latitude === undefined || longitude === undefined] lets
    through a non-empty name with both coordinates present. *)
Definition addLocationHandler (userId : ObjectId) (body : LocationBody)
  : M (Response (list Location)) :=
  tryCatch
    (match body_name body, body_latitude body, body_longitude body with
     | Some name, Some latitude, Some longitude =>
         if String.eqb name EmptyString then
           ret (mkResponse 400 false
                  (Some "Name, latitude, and longitude are required")
                  None None)
         else
           let newLocation :=
             mkLocation name latitude longitude
               (truthyBool (body_isPrimary body)) in
           (if truthyBool (body_isPrimary body)
            then User_updateOne userId clearPrimary
            else ret tt) ;;;
           user <- User_findByIdAndUpdate userId (pushLocation newLocation) ;;
           match user with
           | Some u =>
               ret (mkResponse 200 true (Some "Location added successfully")
                      (Some (locations u)) None)
           | None => throw (MkError "Cannot read properties of null")
           end
     | _, _, _ =>
         ret (mkResponse 400 false
                (Some "Name, latitude, and longitude are required")
                None None)
     end)
    (fun error =>
       console_error "Error adding location:" error ;;;
       ret (mkResponse 500 false (Some "Error adding location") None
              (Some error))).

Definition addLocationRoute (userId : ObjectId) (body : LocationBody)
  : M (Response (list Location)) :=
  authenticateJwt userId
    (fun user => addLocationHandler (user_id user) body).

(** ** Vocabulary of the further statements *)

(** A pair whose reading is fetched and meets the user's threshold. *)
Definition qualifies (env : Env) (p : User * Location) : bool :=
  match readingAt env (snd p) with
  | Ok r => num_geb (aqi_value r) (threshold (alertPreferences (fst p)))
  | Throw _ => false
  end.

(** The alert [a] is backed by a pair of [ps] and a history record of [hs]:
    the record saved just before it, for the same user and place, with the
    same reading, a value that meets that user's threshold, and the
    category the classifier gives for that value and the recommendations
    of that category. *)
Definition alertJustified (ps : list (User * Location))
  (hs : list AqiHistory) (a : Alert) : Prop :=
  exists u l h,
    In (u, l) ps /\ In h hs
    /\ alert_id a = S (hist_id h)
    /\ alert_userId a = user_id u /\ hist_userId h = user_id u
    /\ alert_location a = placeOf l /\ hist_location h = placeOf l
    /\ alert_aqi a = alertAqiOf (hist_aqi h)
    /\ createdAt a = recordedAt h
    /\ num_geb (alert_value (alert_aqi a)) (threshold (alertPreferences u))
       = true
    /\ acknowledged a = false
    /\ alert_category (alert_aqi a)
       = category (getAqiCategory (alert_value (alert_aqi a)))
    /\ recommendations a
       = getRecommendations (alert_category (alert_aqi a)).

(** The ObjectIds in the two collections are below the counter and
    pairwise distinct. *)
Definition idsFresh (w : World) : Prop :=
  Forall (fun h => (hist_id h < nextId w)%nat) (histories w)
  /\ Forall (fun a => (alert_id a < nextId w)%nat) (alerts w)
  /\ NoDup (map hist_id (histories w) ++ map alert_id (alerts w))%list.

Definition withEmail (b : bool) (u : User) : User :=
  mkUser (user_id u) (user_email u) (user_name u) (locations u)
    (mkPrefs (threshold (alertPreferences u))
       (mkMethods
          (pushNotification (notificationMethods (alertPreferences u))) b))
    (deviceTokens u).

Definition primaryCount (ls : list Location) : nat :=
  List.length (filter loc_isPrimary ls).

(** The six category names of the table. *)
Definition tableCategories : list string :=
  map row_category AQI_CATEGORIES.


(** A second user, with tokens, for the route statements. *)
Definition erin : User :=
  mkUser 5 "erin@example.org" "Erin" [home] pushOnly ["tokE"].

Definition twoUsersWorld : World :=
  mkWorld [alice; erin] [] [storedAlert1; storedAlert2] [] [] 30%nat 1000%Z.

(** The world with another history collection. *)
Definition withHistories (hs : list AqiHistory) (w : World) : World :=
  mkWorld (users w) hs (alerts w) (fcmRequests w) (console w) (nextId w)
    (clock w).

(** The provider of [sampleEnv] with a transport that accepts every
    message. *)
Definition calmEnv : Env :=
  mkEnv (axiosGet sampleEnv) (fun _ => Ok "projects/aq/messages/1")
    (numToString sampleEnv) (idToString sampleEnv).


(** * Properties *)

Open Scope list_scope.

(** ** Comparisons *)

Lemma num_leb_trans (a b c : num) :
  num_leb a b = true -> num_leb b c = true -> num_leb a c = true.
Proof.
  destruct a as [x| | |], b as [y| | |], c as [z| | |]; simpl;
    try reflexivity; try discriminate.
  rewrite !Qle_bool_iff. apply Qle_trans.
Qed.

Lemma num_ltb_not_leb (a b : num) :
  num_ltb a b = true -> num_leb b a = false.
Proof.
  destruct a, b; simpl; try discriminate; try reflexivity.
  intros H. apply negb_true_iff in H. exact H.
Qed.

(** ** The classifier *)

Lemma firstCategory_find (rows : list AqiCategoryRow) (v : num) :
  firstCategory rows v =
  option_map (fun r => mkInfo (row_category r) (row_color r))
    (find (fun r => num_leb v (row_max r)) rows).
Proof.
  induction rows as [|r rows IH]; simpl; [reflexivity|].
  destruct (num_leb v (row_max r)); [reflexivity | exact IH].
Qed.

Lemma getAqiCategory_info_cases (v : num) :
  getAqiCategory v =
  if num_leb v (num_of_Z 50) then mkInfo "Good" "#00E400"
  else if num_leb v (num_of_Z 100) then mkInfo "Moderate" "#FFFF00"
  else if num_leb v (num_of_Z 150)
       then mkInfo "Unhealthy for Sensitive Groups" "#FF7E00"
  else if num_leb v (num_of_Z 200) then mkInfo "Unhealthy" "#FF0000"
  else if num_leb v (num_of_Z 300) then mkInfo "Very Unhealthy" "#8F3F97"
  else if num_leb v (num_of_Z 500) then mkInfo "Hazardous" "#7E0023"
  else mkInfo "Extreme" "#7E0023".
Proof.
  unfold getAqiCategory, AQI_CATEGORIES, firstCategory, row_max, row_category,
    row_color.
  split_tests v; reflexivity.
Qed.

Lemma getAqiCategory_cases (v : num) :
  category (getAqiCategory v) =
  if num_leb v (num_of_Z 50) then "Good"
  else if num_leb v (num_of_Z 100) then "Moderate"
  else if num_leb v (num_of_Z 150) then "Unhealthy for Sensitive Groups"
  else if num_leb v (num_of_Z 200) then "Unhealthy"
  else if num_leb v (num_of_Z 300) then "Very Unhealthy"
  else if num_leb v (num_of_Z 500) then "Hazardous"
  else "Extreme".
Proof.
  rewrite getAqiCategory_info_cases. split_tests v; reflexivity.
Qed.

(** C5. The classifier is defined on every number (NaN and the infinities
    included) and returns the category of the smallest bound of the table
    that is >= the input; without such a bound, and so for every value
    above 500, it returns Extreme.  50 is Good, 51 Moderate, 500 Hazardous,
    501 Extreme. *)
Theorem getAqiCategory_smallest_bound (v : num) :
  (forall row,
      In row AQI_CATEGORIES ->
      num_leb v (row_max row) = true ->
      (forall row', In row' AQI_CATEGORIES ->
                    num_leb v (row_max row') = true ->
                    num_leb (row_max row) (row_max row') = true) ->
      getAqiCategory v = mkInfo (row_category row) (row_color row))
  /\ ((forall row, In row AQI_CATEGORIES -> num_leb v (row_max row) = false) ->
      getAqiCategory v = mkInfo "Extreme" "#7E0023")
  /\ (num_ltb (num_of_Z 500) v = true ->
      category (getAqiCategory v) = "Extreme")
  /\ (category (getAqiCategory v) = "Extreme"
      \/ exists row, In row AQI_CATEGORIES
                     /\ num_leb v (row_max row) = true
                     /\ category (getAqiCategory v) = row_category row)
  /\ category (getAqiCategory (num_of_Z 50)) = "Good"
  /\ category (getAqiCategory (num_of_Z 51)) = "Moderate"
  /\ category (getAqiCategory (num_of_Z 500)) = "Hazardous"
  /\ category (getAqiCategory (num_of_Z 501)) = "Extreme".
Proof.
  split; [| split; [| split; [| split]]].
  - intros row Hin Hle Hmin.
    rewrite getAqiCategory_info_cases.
    pose proof (Hmin (mkRow (num_of_Z 50) "Good" "#00E400")
                  ltac:(simpl; tauto)) as H1.
    pose proof (Hmin (mkRow (num_of_Z 100) "Moderate" "#FFFF00")
                  ltac:(simpl; tauto)) as H2.
    pose proof (Hmin (mkRow (num_of_Z 150) "Unhealthy for Sensitive Groups"
                        "#FF7E00") ltac:(simpl; tauto)) as H3.
    pose proof (Hmin (mkRow (num_of_Z 200) "Unhealthy" "#FF0000")
                  ltac:(simpl; tauto)) as H4.
    pose proof (Hmin (mkRow (num_of_Z 300) "Very Unhealthy" "#8F3F97")
                  ltac:(simpl; tauto)) as H5.
    clear Hmin. unfold AQI_CATEGORIES in Hin. simpl in Hin.
    destruct Hin as [<-|[<-|[<-|[<-|[<-|[<-|[]]]]]]];
      cbn [row_max row_category row_color] in *;
      split_tests v; try reflexivity; try congruence; exfalso;
      repeat match goal with
        | Hk : num_leb v ?b = true -> _, H : num_leb v ?b = true |- _ =>
            specialize (Hk H)
        | Hk : true = true -> _ |- _ => specialize (Hk eq_refl)
        end;
      match goal with
      | Hn : _ = true |- _ => vm_compute in Hn; discriminate Hn
      end.
  - intros Hnone. rewrite getAqiCategory_info_cases.
    pose proof (Hnone (mkRow (num_of_Z 50) "Good" "#00E400")
                  ltac:(simpl; tauto)) as N1.
    pose proof (Hnone (mkRow (num_of_Z 100) "Moderate" "#FFFF00")
                  ltac:(simpl; tauto)) as N2.
    pose proof (Hnone (mkRow (num_of_Z 150) "Unhealthy for Sensitive Groups"
                         "#FF7E00") ltac:(simpl; tauto)) as N3.
    pose proof (Hnone (mkRow (num_of_Z 200) "Unhealthy" "#FF0000")
                  ltac:(simpl; tauto)) as N4.
    pose proof (Hnone (mkRow (num_of_Z 300) "Very Unhealthy" "#8F3F97")
                  ltac:(simpl; tauto)) as N5.
    pose proof (Hnone (mkRow (num_of_Z 500) "Hazardous" "#7E0023")
                  ltac:(simpl; tauto)) as N6.
    cbn [row_max] in *. rewrite N1, N2, N3, N4, N5, N6. reflexivity.
  - intros Hgt. rewrite getAqiCategory_cases.
    pose proof (num_ltb_not_leb _ _ Hgt) as H500.
    split_tests v; try reflexivity; exfalso;
      match goal with
      | H : num_leb v ?b = true |- _ =>
          assert (Hc : num_leb v (num_of_Z 500) = true)
            by (eapply num_leb_trans; [exact H | reflexivity]);
          congruence
      end.
  - rewrite getAqiCategory_cases. unfold AQI_CATEGORIES.
    split_tests v; [right .. | left; reflexivity].
    + exists (mkRow (num_of_Z 50) "Good" "#00E400"); simpl; tauto.
    + exists (mkRow (num_of_Z 100) "Moderate" "#FFFF00"); simpl; tauto.
    + exists (mkRow (num_of_Z 150) "Unhealthy for Sensitive Groups" "#FF7E00");
        simpl; tauto.
    + exists (mkRow (num_of_Z 200) "Unhealthy" "#FF0000"); simpl; tauto.
    + exists (mkRow (num_of_Z 300) "Very Unhealthy" "#8F3F97"); simpl; tauto.
    + exists (mkRow (num_of_Z 500) "Hazardous" "#7E0023"); simpl; tauto.
  - repeat split; reflexivity.
Qed.

Lemma getAqiCategory_smallest_bound_witness :
  getAqiCategory (num_of_Z 75) = mkInfo "Moderate" "#FFFF00".
Proof.
  apply (proj1 (getAqiCategory_smallest_bound (num_of_Z 75))
           (mkRow (num_of_Z 100) "Moderate" "#FFFF00")).
  - simpl; tauto.
  - reflexivity.
  - intros row' Hin Hle. simpl in Hin.
    destruct Hin as [<-|[<-|[<-|[<-|[<-|[<-|[]]]]]]];
      vm_compute in Hle |- *; congruence.
Defined.

(** C8. Every input is classified into one category of the tier list, and
    the classifier is monotone: when [v1 <= v2], the rank of the category
    of [v1] in the tier list is at most the rank of the category of [v2]. *)
Theorem getAqiCategory_monotone :
  (forall v, exists r, severityRank (category (getAqiCategory v)) = Some r)
  /\ (forall v1 v2 r1 r2,
         num_leb v1 v2 = true ->
         severityRank (category (getAqiCategory v1)) = Some r1 ->
         severityRank (category (getAqiCategory v2)) = Some r2 ->
         (r1 <= r2)%nat).
Proof.
  split.
  - intros v. rewrite getAqiCategory_cases.
    split_tests v; eexists; reflexivity.
  - intros v1 v2 r1 r2 Hle.
    rewrite !getAqiCategory_cases.
    assert (Htr : forall b, num_leb v2 b = true -> num_leb v1 b = true)
      by (intros b Hb; eapply num_leb_trans; eassumption).
    split_tests v2;
      repeat match goal with
        | H : num_leb v2 ?b = true |- _ => apply Htr in H
        end;
      clear Htr;
      split_tests v1; try congruence;
      vm_compute; intros E1 E2;
      injection E1 as <-; injection E2 as <-; lia.
Qed.

Lemma getAqiCategory_monotone_witness :
  severityRank (category (getAqiCategory (num_of_Z 75))) = Some 1%nat
  /\ severityRank (category (getAqiCategory (num_of_Z 180))) = Some 3%nat
  /\ (1 <= 3)%nat.
Proof.
  split; [reflexivity|]. split; [reflexivity|].
  apply (proj2 getAqiCategory_monotone (num_of_Z 75) (num_of_Z 180));
    reflexivity.
Defined.

(** ** The monad and the loops *)

Lemma forOf_cons {A} (x : A) (xs : list A) (body : A -> M unit) (w : World) :
  forOf (x :: xs) body w =
  match body x w with
  | (w', Ok _) => forOf xs body w'
  | (w', Throw e) => (w', Throw e)
  end.
Proof. reflexivity. Qed.

Lemma bind_run {A B} (m : M A) (k : A -> M B) (w : World) :
  (x <- m ;; k x) w =
  match m w with
  | (w', Ok a) => k a w'
  | (w', Throw e) => (w', Throw e)
  end.
Proof. reflexivity. Qed.

Lemma forOf_app {A} (xs ys : list A) (body : A -> M unit) (w : World) :
  forOf (xs ++ ys) body w =
  match forOf xs body w with
  | (w', Ok _) => forOf ys body w'
  | (w', Throw e) => (w', Throw e)
  end.
Proof.
  revert w. induction xs as [|x xs IH]; intros w; simpl.
  - reflexivity.
  - unfold bind. destruct (body x w) as [w1 [[]|e]].
    + apply IH.
    + reflexivity.
Qed.

Lemma forOf_map {A B} (g : A -> B) (xs : list A) (body : B -> M unit)
  (w : World) :
  forOf (map g xs) body w = forOf xs (fun x => body (g x)) w.
Proof.
  revert w. induction xs as [|x xs IH]; intros w; simpl; [reflexivity|].
  unfold bind. destruct (body (g x) w) as [w1 [[]|e]]; auto.
Qed.

(** The two nested loops visit the pairs of [pairsOf] in order. *)
Lemma forOf_users_pairs (env : Env) (us : list User) (w : World) :
  forOf us (checkUser env) w = checkPairs env (pairsOf us) w.
Proof.
  unfold checkPairs. revert w.
  induction us as [|u us IH]; intros w; simpl; [reflexivity|].
  rewrite forOf_app. unfold bind.
  unfold checkUser at 1. rewrite forOf_map. simpl.
  destruct (forOf (locations u) (checkLocation env u) w) as [w1 [[]|e]];
    [apply IH | reflexivity].
Qed.

(** A sweep that reaches a pair whose body throws stops there: the error
    is logged and rethrown, and the pairs after it are not visited. *)
Lemma sweep_stops_at_throw (env : Env) (w w1 w2 : World)
  (pre post : list (User * Location)) (p : User * Location) (e : Error) :
  pairsOf (users w) = pre ++ p :: post ->
  checkPairs env pre w = (w1, Ok tt) ->
  checkLocation env (fst p) (snd p) w1 = (w2, Throw e) ->
  checkAirQualityAndAlert env w =
  (logError "Error checking AQI and sending alerts:" e w2, Throw e).
Proof.
  intros Hps Hpre Hp.
  unfold checkAirQualityAndAlert, tryCatch, bind, User_find.
  rewrite forOf_users_pairs, Hps.
  unfold checkPairs in *. rewrite forOf_app, Hpre.
  simpl. unfold bind. rewrite Hp. reflexivity.
Qed.

(** A sweep all of whose pairs complete normally completes normally. *)
Lemma sweep_completes (env : Env) (w w1 : World) :
  checkPairs env (pairsOf (users w)) w = (w1, Ok tt) ->
  checkAirQualityAndAlert env w =
  (mkWorld (users w1) (histories w1) (alerts w1) (fcmRequests w1)
     (console w1 ++ [ConsoleLog "AQI check and alert process completed"])
     (nextId w1) (clock w1), Ok tt).
Proof.
  intros H.
  unfold checkAirQualityAndAlert, tryCatch, bind, User_find.
  rewrite forOf_users_pairs, H. reflexivity.
Qed.

(** ** fetchAqiData *)

Lemma fetchAqiData_result (env : Env) (la lo : num) (w : World) :
  fetchAqiData env la lo w =
  match snd (fetchAqiData env la lo emptyWorld) with
  | Ok r => (w, Ok r)
  | Throw e => (logError "Error fetching AQI data:" e w, Throw e)
  end.
Proof.
  unfold fetchAqiData, tryCatch.
  destruct (axiosGet env la lo) as [e|[b|]]; try reflexivity.
  destruct (String.eqb (waqi_status b) "ok"); try reflexivity.
  destruct (waqi_data b); reflexivity.
Qed.

Lemma fetchAqiData_ok (env : Env) (l : Location) (r : AqiData) (w : World) :
  readingAt env l = Ok r ->
  fetchAqiData env (loc_latitude l) (loc_longitude l) w = (w, Ok r).
Proof.
  unfold readingAt. intros H. rewrite fetchAqiData_result, H. reflexivity.
Qed.

Lemma fetchAqiData_throw (env : Env) (l : Location) (e : Error) (w : World) :
  readingAt env l = Throw e ->
  fetchAqiData env (loc_latitude l) (loc_longitude l) w =
  (logError "Error fetching AQI data:" e w, Throw e).
Proof.
  unfold readingAt. intros H. rewrite fetchAqiData_result, H. reflexivity.
Qed.

(** The category stored in a reading is the classifier's. *)
Lemma readingAt_category (env : Env) (l : Location) (r : AqiData) :
  readingAt env l = Ok r ->
  aqi_category r = category (getAqiCategory (aqi_value r)).
Proof.
  unfold readingAt, fetchAqiData, tryCatch.
  destruct (axiosGet env _ _) as [e|[b|]]; simpl; try discriminate.
  destruct (String.eqb (waqi_status b) "ok"); simpl; try discriminate.
  destruct (waqi_data b); simpl; try discriminate.
  intros H. injection H as <-. reflexivity.
Qed.

(** ** Push delivery *)

Lemma sendPushNotification_ok (env : Env) (tok : string) (n : Notification)
  (resp : string) (w : World) :
  fcmSend env (mkPushMessage tok n) = Ok resp ->
  exists w',
    sendPushNotification env tok n w = (w', Ok resp)
    /\ fcmRequests w' = fcmRequests w ++ [mkPushMessage tok n]
    /\ sameStore w w'.
Proof.
  intros H. unfold sendPushNotification, tryCatch, bind, messaging_send.
  rewrite H. simpl. eexists. split; [reflexivity|].
  simpl. unfold sameStore. simpl. repeat split; reflexivity.
Qed.

Lemma sendPushNotification_throw (env : Env) (tok : string)
  (n : Notification) (e : Error) (w : World) :
  fcmSend env (mkPushMessage tok n) = Throw e ->
  exists w',
    sendPushNotification env tok n w = (w', Throw e)
    /\ fcmRequests w' = fcmRequests w ++ [mkPushMessage tok n]
    /\ sameStore w w'.
Proof.
  intros H. unfold sendPushNotification, tryCatch, bind, messaging_send.
  rewrite H. simpl. eexists. split; [reflexivity|].
  simpl. unfold sameStore. simpl. repeat split; reflexivity.
Qed.

Lemma sameStore_refl (w : World) : sameStore w w.
Proof. unfold sameStore; repeat split; reflexivity. Qed.

Lemma sameStore_trans (w1 w2 w3 : World) :
  sameStore w1 w2 -> sameStore w2 w3 -> sameStore w1 w3.
Proof.
  unfold sameStore. intros (a & b & c & d & e) (a' & b' & c' & d' & e').
  repeat split; congruence.
Qed.

(** The loop over the device tokens, every send succeeding. *)
Lemma push_loop_all_sent (env : Env) (n : Notification) (toks : list string)
  (w : World) :
  (forall tok, In tok toks ->
               isNormal (fcmSend env (mkPushMessage tok n)) = true) ->
  exists w',
    forOf toks (fun tok => sendPushNotification env tok n ;;; ret tt) w
    = (w', Ok tt)
    /\ fcmRequests w' =
       fcmRequests w ++ map (fun tok => mkPushMessage tok n) toks
    /\ sameStore w w'.
Proof.
  revert w. induction toks as [|tok toks IH]; intros w Hall.
  - exists w. simpl. rewrite app_nil_r. auto using sameStore_refl.
  - destruct (fcmSend env (mkPushMessage tok n)) as [resp|e] eqn:Hs.
    2:{ specialize (Hall tok (or_introl eq_refl)). rewrite Hs in Hall.
        discriminate. }
    destruct (sendPushNotification_ok env tok n resp w Hs)
      as (w1 & E1 & F1 & S1).
    destruct (IH w1 (fun t Ht => Hall t (or_intror Ht)))
      as (w2 & E2 & F2 & S2).
    exists w2. rewrite forOf_cons, bind_run, E1. unfold ret at 1. rewrite E2.
    split; [reflexivity|]. split.
    + rewrite F2, F1, <- app_assoc. reflexivity.
    + eapply sameStore_trans; eassumption.
Qed.

(** The loop over the device tokens, stopped by the first failing send. *)
Lemma push_loop_stops (env : Env) (n : Notification)
  (toks1 toks2 : list string) (tok : string) (e : Error) (w : World) :
  (forall t, In t toks1 ->
             isNormal (fcmSend env (mkPushMessage t n)) = true) ->
  fcmSend env (mkPushMessage tok n) = Throw e ->
  exists w',
    forOf (toks1 ++ tok :: toks2)
      (fun tok => sendPushNotification env tok n ;;; ret tt) w
    = (w', Throw e)
    /\ fcmRequests w' =
       fcmRequests w ++ map (fun t => mkPushMessage t n) (toks1 ++ [tok])
    /\ sameStore w w'.
Proof.
  intros Hpre Hfail. rewrite forOf_app.
  destruct (push_loop_all_sent env n toks1 w Hpre) as (w1 & E1 & F1 & S1).
  destruct (sendPushNotification_throw env tok n e w1 Hfail)
    as (w2 & E2 & F2 & S2).
  exists w2. rewrite E1, forOf_cons, bind_run, E2.
  split; [reflexivity|]. split.
  - rewrite F2, F1, map_app, <- app_assoc. reflexivity.
  - eapply sameStore_trans; eassumption.
Qed.

(** ** One (user, location) pair *)

Lemma checkLocation_fetch_throw (env : Env) (u : User) (l : Location)
  (e : Error) (w : World) :
  readingAt env l = Throw e ->
  checkLocation env u l w =
  (logError "Error fetching AQI data:" e w, Throw e).
Proof.
  intros H. unfold checkLocation. rewrite bind_run.
  rewrite (fetchAqiData_throw env l e w H). reflexivity.
Qed.

Lemma checkLocation_below (env : Env) (u : User) (l : Location)
  (r : AqiData) (w : World) :
  readingAt env l = Ok r ->
  num_geb (aqi_value r) (threshold (alertPreferences u)) = false ->
  checkLocation env u l w = (afterHistory w u l r, Ok tt).
Proof.
  intros H Hlt. unfold checkLocation. rewrite bind_run.
  rewrite (fetchAqiData_ok env l r w H). rewrite bind_run.
  unfold saveAqiHistory at 1. rewrite Hlt. reflexivity.
Qed.

(** With a reading that meets the threshold, the pair's body saves the
    history record and the alert, then runs the push loop and the (empty)
    email step in the world so obtained. *)
Lemma checkLocation_meets (env : Env) (u : User) (l : Location)
  (r : AqiData) (w : World) :
  readingAt env l = Ok r ->
  num_geb (aqi_value r) (threshold (alertPreferences u)) = true ->
  checkLocation env u l w =
  ((if pushNotification (notificationMethods (alertPreferences u))
       && (0 <? List.length (deviceTokens u))%nat
    then
      forOf (deviceTokens u) (fun tok =>
        sendPushNotification env tok
          (alertNotification env l r
             (category (getAqiCategory (aqi_value r)))
             (alertFor env w u l r)) ;;;
        ret tt)
    else ret tt) ;;;
   (if email (notificationMethods (alertPreferences u))
    then ret tt else ret tt))
    (afterAlert env w u l r).
Proof.
  intros H Hge. unfold checkLocation. rewrite bind_run.
  rewrite (fetchAqiData_ok env l r w H). rewrite bind_run.
  unfold saveAqiHistory at 1. rewrite Hge. rewrite bind_run.
  reflexivity.
Qed.

Lemma sendPushNotification_frame (env : Env) (tok : string)
  (n : Notification) (w : World) :
  sameStore w (fst (sendPushNotification env tok n w)).
Proof.
  destruct (fcmSend env (mkPushMessage tok n)) as [resp|e] eqn:Hs.
  - destruct (sendPushNotification_ok env tok n resp w Hs) as (w' & E & _ & S).
    rewrite E. exact S.
  - destruct (sendPushNotification_throw env tok n e w Hs) as (w' & E & _ & S).
    rewrite E. exact S.
Qed.

Lemma push_loop_frame (env : Env) (n : Notification) (toks : list string)
  (w : World) :
  sameStore w
    (fst (forOf toks (fun tok => sendPushNotification env tok n ;;; ret tt) w)).
Proof.
  revert w. induction toks as [|tok toks IH]; intros w.
  - apply sameStore_refl.
  - rewrite forOf_cons, bind_run.
    pose proof (sendPushNotification_frame env tok n w) as S1.
    destruct (sendPushNotification env tok n w) as [w1 [resp|e]]; simpl in *.
    + eapply sameStore_trans; [exact S1 | apply IH].
    + exact S1.
Qed.

(** Whatever the push transport answers, the dispatch of an alert leaves
    the collections as the two saves made them. *)
Lemma checkLocation_meets_store (env : Env) (u : User) (l : Location)
  (r : AqiData) (w : World) :
  readingAt env l = Ok r ->
  num_geb (aqi_value r) (threshold (alertPreferences u)) = true ->
  sameStore (afterAlert env w u l r) (fst (checkLocation env u l w)).
Proof.
  intros H Hge. rewrite (checkLocation_meets env u l r w H Hge).
  rewrite bind_run.
  destruct (pushNotification _ && _).
  - pose proof (push_loop_frame env
      (alertNotification env l r (category (getAqiCategory (aqi_value r)))
         (alertFor env w u l r))
      (deviceTokens u) (afterAlert env w u l r)) as S1.
    destruct (forOf _ _ _) as [w1 [[]|e]]; simpl in *.
    + destruct (email _); exact S1.
    + exact S1.
  - unfold ret at 1. destruct (email _); apply sameStore_refl.
Qed.

Lemma app_one_neq {A} (xs : list A) (x : A) : xs <> xs ++ [x].
Proof.
  intros E. apply (f_equal (@List.length A)) in E.
  rewrite length_app in E. simpl in E. lia.
Qed.


(** ** Worlds only grow *)

Lemma extends_refl (w : World) : extends w w.
Proof.
  unfold extends. repeat split; auto.
  - exists []. rewrite app_nil_r. auto.
  - exists []. rewrite app_nil_r. auto.
Qed.

Lemma extends_trans (w1 w2 w3 : World) :
  extends w1 w2 -> extends w2 w3 -> extends w1 w3.
Proof.
  intros (U1 & C1 & N1 & (hs1 & H1 & F1) & (as1 & A1 & G1))
         (U2 & C2 & N2 & (hs2 & H2 & F2) & (as2 & A2 & G2)).
  unfold extends. repeat split; try congruence; try lia.
  - exists (hs1 ++ hs2). split.
    + rewrite H2, H1, app_assoc. reflexivity.
    + apply Forall_app. split.
      * eapply Forall_impl; [|exact F1]. simpl. intros; lia.
      * eapply Forall_impl; [|exact F2]. simpl. intros; lia.
  - exists (as1 ++ as2). split.
    + rewrite A2, A1, app_assoc. reflexivity.
    + apply Forall_app. split.
      * eapply Forall_impl; [|exact G1]. simpl. intros; lia.
      * eapply Forall_impl; [|exact G2]. simpl. intros; lia.
Qed.

Lemma sameStore_extends (w w' : World) : sameStore w w' -> extends w w'.
Proof.
  intros (U & H & A & N & C). unfold extends.
  repeat split; auto; try lia.
  - exists []. rewrite app_nil_r. auto.
  - exists []. rewrite app_nil_r. auto.
Qed.

Lemma logError_sameStore (text : string) (e : Error) (w : World) :
  sameStore w (logError text e w).
Proof. unfold sameStore; repeat split; reflexivity. Qed.

Lemma afterHistory_extends (w : World) (u : User) (l : Location)
  (r : AqiData) : extends w (afterHistory w u l r).
Proof.
  unfold extends. simpl. repeat split; auto.
  - exists [historyFor w u l r]. split; [reflexivity|].
    constructor; [simpl; lia | constructor].
  - exists []. rewrite app_nil_r. auto.
Qed.

Lemma afterAlert_extends (env : Env) (w : World) (u : User) (l : Location)
  (r : AqiData) : extends w (afterAlert env w u l r).
Proof.
  unfold extends. simpl. repeat split; auto.
  - exists [historyFor w u l r]. split; [reflexivity|].
    constructor; [simpl; lia | constructor].
  - exists [alertFor env w u l r]. split; [reflexivity|].
    constructor; [simpl; lia | constructor].
Qed.

Lemma checkLocation_extends (env : Env) (u : User) (l : Location)
  (w : World) :
  extends w (fst (checkLocation env u l w)).
Proof.
  destruct (readingAt env l) as [r|e] eqn:Hr.
  - destruct (num_geb (aqi_value r) (threshold (alertPreferences u))) eqn:Hc.
    + eapply extends_trans; [apply (afterAlert_extends env w u l r)|].
      apply sameStore_extends.
      apply checkLocation_meets_store; assumption.
    + rewrite (checkLocation_below env u l r w Hr Hc). simpl.
      apply afterHistory_extends.
  - rewrite (checkLocation_fetch_throw env u l e w Hr). simpl.
    apply sameStore_extends, logError_sameStore.
Qed.

Lemma checkPairs_extends (env : Env) (ps : list (User * Location))
  (w : World) :
  extends w (fst (checkPairs env ps w)).
Proof.
  unfold checkPairs. revert w.
  induction ps as [|p ps IH]; intros w.
  - apply extends_refl.
  - rewrite forOf_cons.
    pose proof (checkLocation_extends env (fst p) (snd p) w) as E.
    destruct (checkLocation env (fst p) (snd p) w) as [w1 [[]|e]];
      simpl in E |- *.
    + eapply extends_trans; [exact E | apply IH].
    + exact E.
Qed.

(** The sweep's final world has the collections the loops left. *)
Lemma sweep_store (env : Env) (w : World) :
  sameStore (fst (checkPairs env (pairsOf (users w)) w))
            (fst (checkAirQualityAndAlert env w))
  /\ fcmRequests (fst (checkAirQualityAndAlert env w))
     = fcmRequests (fst (checkPairs env (pairsOf (users w)) w)).
Proof.
  unfold checkAirQualityAndAlert, tryCatch, bind, User_find.
  rewrite forOf_users_pairs.
  destruct (checkPairs env (pairsOf (users w)) w) as [w1 [[]|e]]; simpl;
    split; try reflexivity; unfold sameStore; repeat split; reflexivity.
Qed.

Lemma sweep_extends (env : Env) (w : World) :
  extends w (fst (checkAirQualityAndAlert env w)).
Proof.
  eapply extends_trans; [apply checkPairs_extends|].
  apply sameStore_extends, sweep_store.
Qed.

(** A sweep that reaches a pair goes on from the world the pair's body
    leaves: what that body saved is in the sweep's final world. *)
Lemma sweep_through (env : Env) (w wa : World)
  (pre post : list (User * Location)) (p : User * Location) :
  pairsOf (users w) = pre ++ p :: post ->
  checkPairs env pre w = (wa, Ok tt) ->
  extends (fst (checkLocation env (fst p) (snd p) wa))
          (fst (checkAirQualityAndAlert env w)).
Proof.
  intros Hps Hpre.
  eapply extends_trans; [|apply sameStore_extends, sweep_store].
  rewrite Hps. unfold checkPairs in *. rewrite forOf_app, Hpre, forOf_cons.
  destruct (checkLocation env (fst p) (snd p) wa) as [w2 [[]|e]]; simpl.
  - apply (checkPairs_extends env post w2).
  - apply extends_refl.
Qed.

(** The body of a pair whose fetch succeeded saves the history record,
    whatever happens next. *)
Lemma checkLocation_history (env : Env) (u : User) (l : Location)
  (r : AqiData) (w : World) :
  readingAt env l = Ok r ->
  histories (fst (checkLocation env u l w))
  = histories w ++ [historyFor w u l r]
  /\ (nextId w < nextId (fst (checkLocation env u l w)))%nat.
Proof.
  intros Hr.
  destruct (num_geb (aqi_value r) (threshold (alertPreferences u))) eqn:Hc.
  - destruct (checkLocation_meets_store env u l r w Hr Hc)
      as (_ & Hh & _ & Hn & _).
    rewrite Hh, Hn. simpl. split; [reflexivity | lia].
  - rewrite (checkLocation_below env u l r w Hr Hc). simpl.
    split; [reflexivity | lia].
Qed.

(** ** The scan pipeline *)

(** C1. When the sweep reaches a pair (in the world [wa]) and the fetch
    gives the reading [r], the sweep appends the pair's alert to the Alert
    collection if and only if [r.value >= threshold].  Otherwise the pair's
    body returns normally: no alert written, no notification sent. *)
Theorem threshold_alert_iff (env : Env) (w wa : World)
  (pre post : list (User * Location)) (u : User) (l : Location)
  (r : AqiData) :
  pairsOf (users w) = pre ++ (u, l) :: post ->
  checkPairs env pre w = (wa, Ok tt) ->
  readingAt env l = Ok r ->
  (num_geb (aqi_value r) (threshold (alertPreferences u)) = true
   <-> exists later,
         alerts (fst (checkAirQualityAndAlert env w))
         = alerts wa ++ alertFor env wa u l r :: later)
  /\ (num_geb (aqi_value r) (threshold (alertPreferences u)) = false ->
      snd (checkLocation env u l wa) = Ok tt
      /\ alerts (fst (checkLocation env u l wa)) = alerts wa
      /\ fcmRequests (fst (checkLocation env u l wa)) = fcmRequests wa).
Proof.
  intros Hps Hpre Hr.
  destruct (sweep_through env w wa pre post (u, l) Hps Hpre)
    as (_ & _ & _ & _ & (als & Hals & Fals)).
  simpl in Hals, Fals.
  split; [split|].
  - intros Hge.
    destruct (checkLocation_meets_store env u l r wa Hr Hge)
      as (_ & _ & Ha & _).
    exists als. rewrite Hals, Ha. simpl. rewrite <- app_assoc. reflexivity.
  - intros (later & Hl).
    destruct (num_geb (aqi_value r) (threshold (alertPreferences u))) eqn:Hc;
      [reflexivity | exfalso].
    rewrite (checkLocation_below env u l r wa Hr Hc) in Hals, Fals.
    simpl in Hals, Fals. rewrite Hals in Hl.
    apply app_inv_head in Hl. subst als.
    inversion Fals as [|a0 l0 Hid _]. simpl in Hid. lia.
  - intros Hc. rewrite (checkLocation_below env u l r wa Hr Hc). simpl. auto.
Qed.

(** The body of a pair saves at most one history record, for that pair. *)
Lemma checkLocation_history_bound (env : Env) (u : User) (l : Location)
  (w : World) :
  exists hs,
    histories (fst (checkLocation env u l w)) = histories w ++ hs
    /\ (List.length hs <= 1)%nat
    /\ (nextId w <= nextId (fst (checkLocation env u l w)))%nat
    /\ Forall (fun h => (nextId w <= hist_id h)%nat
                        /\ hist_userId h = user_id u
                        /\ hist_location h = placeOf l) hs.
Proof.
  pose proof (checkLocation_extends env u l w) as (_ & _ & Hn & _).
  destruct (readingAt env l) as [r|e] eqn:Hr.
  - destruct (checkLocation_history env u l r w Hr) as (Hh & _).
    exists [historyFor w u l r]. split; [exact Hh|].
    split; [simpl; lia|]. split; [exact Hn|].
    constructor; [|constructor]. simpl. auto.
  - exists []. rewrite (checkLocation_fetch_throw env u l e w Hr) in *.
    simpl in *. rewrite app_nil_r. auto.
Qed.

(** The loop over some pairs saves at most one history record per pair,
    each for one of these pairs. *)
Lemma checkPairs_history_bound (env : Env) (ps : list (User * Location))
  (w : World) :
  exists hs,
    histories (fst (checkPairs env ps w)) = histories w ++ hs
    /\ (List.length hs <= List.length ps)%nat
    /\ Forall (fun h => (nextId w <= hist_id h)%nat
                        /\ exists p, In p ps
                                     /\ hist_userId h = user_id (fst p)
                                     /\ hist_location h = placeOf (snd p))
         hs.
Proof.
  unfold checkPairs. revert w. induction ps as [|p ps IH]; intros w.
  - exists []. simpl. rewrite app_nil_r. auto.
  - rewrite forOf_cons.
    destruct (checkLocation_history_bound env (fst p) (snd p) w)
      as (hs1 & Hh1 & Hl1 & Hn1 & F1).
    assert (F1' : Forall (fun h => (nextId w <= hist_id h)%nat
                    /\ exists q, In q (p :: ps)
                                 /\ hist_userId h = user_id (fst q)
                                 /\ hist_location h = placeOf (snd q)) hs1).
    { eapply Forall_impl; [|exact F1]. simpl. intros h (Hid & Hu & Hp).
      split; [exact Hid|]. exists p. auto. }
    destruct (checkLocation env (fst p) (snd p) w) as [w1 [[]|e]];
      simpl in Hh1, Hn1 |- *.
    + destruct (IH w1) as (hs2 & Hh2 & Hl2 & F2).
      exists (hs1 ++ hs2). split; [rewrite Hh2, Hh1, app_assoc; reflexivity|].
      split; [rewrite length_app; lia|].
      apply Forall_app. split; [exact F1'|].
      eapply Forall_impl; [|exact F2]. simpl.
      intros h (Hid & q & Hq & Hu & Hp). split; [lia|].
      exists q. auto.
    + exists hs1. split; [exact Hh1|]. split; [lia | exact F1'].
Qed.

(** C7. When the sweep reaches a pair and its fetch succeeds, the pair's
    body saves exactly one history record, with or without an alert and
    whatever the push transport answers.  In the sweep's final history
    that record follows what was stored when the pair was reached, and
    what comes after it is at most one record per later pair, each for a
    later pair and with a larger ObjectId. *)
Theorem history_recorded_once (env : Env) (w wa : World)
  (pre post : list (User * Location)) (u : User) (l : Location)
  (r : AqiData) :
  pairsOf (users w) = pre ++ (u, l) :: post ->
  checkPairs env pre w = (wa, Ok tt) ->
  readingAt env l = Ok r ->
  histories (fst (checkLocation env u l wa))
  = histories wa ++ [historyFor wa u l r]
  /\ exists later,
       histories (fst (checkAirQualityAndAlert env w))
       = histories wa ++ historyFor wa u l r :: later
       /\ (List.length later <= List.length post)%nat
       /\ Forall (fun h =>
                   (hist_id (historyFor wa u l r) < hist_id h)%nat
                   /\ exists p, In p post
                                /\ hist_userId h = user_id (fst p)
                                /\ hist_location h = placeOf (snd p))
            later.
Proof.
  intros Hps Hpre Hr.
  destruct (checkLocation_history env u l r wa Hr) as (Hh & Hn).
  split; [exact Hh|].
  destruct (sweep_store env w) as ((_ & Sh & _) & _).
  rewrite Sh, Hps. unfold checkPairs in *.
  rewrite forOf_app, Hpre, forOf_cons.
  change (fst (u, l)) with u. change (snd (u, l)) with l.
  destruct (checkLocation env u l wa) as [w2 [[]|e]]; simpl in Hh, Hn |- *.
  - destruct (checkPairs_history_bound env post w2) as (hs & Hhs & Hl & F).
    unfold checkPairs in Hhs. exists hs. split.
    + rewrite Hhs, Hh, <- app_assoc. reflexivity.
    + split; [exact Hl|]. eapply Forall_impl; [|exact F]. simpl.
      intros h (Hid & Hp). split; [lia | exact Hp].
  - exists []. rewrite Hh. split; [reflexivity|].
    split; [simpl; lia | constructor].
Qed.

(** C3, as the code has it.  A reading below the threshold raises no
    alert, also when the history holds a previous reading of the same pair
    with another category: the body only saves the history record and
    returns normally, and the alerts the sweep adds from there on are those
    of later pairs. *)
Theorem below_threshold_no_change_alert (env : Env) (w wa : World)
  (pre post : list (User * Location)) (u : User) (l : Location)
  (r : AqiData) (prev : AqiHistory) :
  pairsOf (users w) = pre ++ (u, l) :: post ->
  checkPairs env pre w = (wa, Ok tt) ->
  readingAt env l = Ok r ->
  In prev (histories wa) ->
  hist_userId prev = user_id u ->
  hist_location prev = placeOf l ->
  aqi_category (hist_aqi prev) <> aqi_category r ->
  num_ltb (aqi_value r) (threshold (alertPreferences u)) = true ->
  checkLocation env u l wa = (afterHistory wa u l r, Ok tt)
  /\ alerts (afterHistory wa u l r) = alerts wa
  /\ fcmRequests (afterHistory wa u l r) = fcmRequests wa
  /\ exists later,
       alerts (fst (checkAirQualityAndAlert env w)) = alerts wa ++ later
       /\ Forall (fun a => (S (nextId wa) < alert_id a)%nat) later.
Proof.
  intros Hps Hpre Hr _ _ _ _ Hlt.
  assert (Hc : num_geb (aqi_value r) (threshold (alertPreferences u)) = false)
    by (apply num_ltb_not_leb; exact Hlt).
  pose proof (checkLocation_below env u l r wa Hr Hc) as Hstep.
  split; [exact Hstep|]. split; [reflexivity|]. split; [reflexivity|].
  destruct (sweep_through env w wa pre post (u, l) Hps Hpre)
    as (_ & _ & _ & _ & (als & Hals & Fals)).
  simpl in Hals, Fals. rewrite Hstep in Hals, Fals. simpl in Hals, Fals.
  exists als. split; [exact Hals|].
  eapply Forall_impl; [|exact Fals]. simpl. intros a Hb. lia.
Qed.

(** C2, as the code has it.  When the fetch of a pair fails, the sweep
    stops at that pair: the error is logged by [fetchAqiData] and by
    [checkAirQualityAndAlert], which rethrows it; the collections are as
    the pairs before it left them, and neither the failing pair nor any
    pair after it gets a history record or an alert. *)
Theorem fetch_failure_stops_sweep (env : Env) (w wa : World)
  (pre post : list (User * Location)) (p : User * Location) (e : Error) :
  pairsOf (users w) = pre ++ p :: post ->
  checkPairs env pre w = (wa, Ok tt) ->
  readingAt env (snd p) = Throw e ->
  exists w',
    checkAirQualityAndAlert env w = (w', Throw e)
    /\ histories w' = histories wa
    /\ alerts w' = alerts wa
    /\ fcmRequests w' = fcmRequests wa
    /\ nextId w' = nextId wa
    /\ console w'
       = console wa
         ++ [ConsoleError "Error fetching AQI data:" e;
             ConsoleError "Error checking AQI and sending alerts:" e].
Proof.
  intros Hps Hpre Hr.
  pose proof (checkLocation_fetch_throw env (fst p) (snd p) e wa Hr) as Hstep.
  rewrite (sweep_stops_at_throw env w wa _ pre post p e Hps Hpre Hstep).
  eexists. split; [reflexivity|]. simpl.
  rewrite <- app_assoc. simpl. repeat split; reflexivity.
Qed.

Lemma sendPushNotification_run_ok (env : Env) (tok : string)
  (n : Notification) (resp : string) (w : World) :
  fcmSend env (mkPushMessage tok n) = Ok resp ->
  sendPushNotification env tok n w
  = (mkWorld (users w) (histories w) (alerts w)
       (fcmRequests w ++ [mkPushMessage tok n])
       (console w ++ [sentLine env (mkPushMessage tok n)])
       (nextId w) (clock w), Ok resp).
Proof.
  intros H. unfold sendPushNotification, tryCatch, bind, messaging_send,
    sentLine.
  rewrite H. reflexivity.
Qed.

Lemma sendPushNotification_run_throw (env : Env) (tok : string)
  (n : Notification) (e : Error) (w : World) :
  fcmSend env (mkPushMessage tok n) = Throw e ->
  sendPushNotification env tok n w
  = (mkWorld (users w) (histories w) (alerts w)
       (fcmRequests w ++ [mkPushMessage tok n])
       (console w ++ [ConsoleError "Error sending notification:" e])
       (nextId w) (clock w), Throw e).
Proof.
  intros H. unfold sendPushNotification, tryCatch, bind, messaging_send.
  rewrite H. reflexivity.
Qed.

(** What the loop over the device tokens writes on the console: one line
    per accepted message, then the error of the rejected one. *)
Lemma push_loop_all_sent_console (env : Env) (n : Notification)
  (toks : list string) (w : World) :
  (forall tok, In tok toks ->
               isNormal (fcmSend env (mkPushMessage tok n)) = true) ->
  console
    (fst (forOf toks (fun tok => sendPushNotification env tok n ;;; ret tt)
            w))
  = console w ++ map (fun tok => sentLine env (mkPushMessage tok n)) toks.
Proof.
  revert w. induction toks as [|tok toks IH]; intros w Hall.
  - simpl. rewrite app_nil_r. reflexivity.
  - destruct (fcmSend env (mkPushMessage tok n)) as [resp|e] eqn:Hs.
    2:{ specialize (Hall tok (or_introl eq_refl)). rewrite Hs in Hall.
        discriminate. }
    rewrite forOf_cons, bind_run.
    rewrite (sendPushNotification_run_ok env tok n resp w Hs).
    unfold ret at 1.
    rewrite (IH _ (fun t Ht => Hall t (or_intror Ht))).
    simpl. rewrite <- app_assoc. reflexivity.
Qed.

Lemma push_loop_stops_console (env : Env) (n : Notification)
  (toks1 toks2 : list string) (tok : string) (e : Error) (w : World) :
  (forall t, In t toks1 ->
             isNormal (fcmSend env (mkPushMessage t n)) = true) ->
  fcmSend env (mkPushMessage tok n) = Throw e ->
  console
    (fst (forOf (toks1 ++ tok :: toks2)
            (fun tok => sendPushNotification env tok n ;;; ret tt) w))
  = console w
    ++ map (fun t => sentLine env (mkPushMessage t n)) toks1
    ++ [ConsoleError "Error sending notification:" e].
Proof.
  intros Hpre Hfail. rewrite forOf_app.
  pose proof (push_loop_all_sent_console env n toks1 w Hpre) as Hc.
  destruct (push_loop_all_sent env n toks1 w Hpre) as (w1 & E1 & _).
  rewrite E1 in Hc |- *. simpl in Hc.
  rewrite forOf_cons, bind_run.
  rewrite (sendPushNotification_run_throw env tok n e w1 Hfail).
  simpl. rewrite Hc, <- app_assoc. reflexivity.
Qed.

(** C4, as the code has it.  When the push transport rejects the message
    for one device token, the dispatch and the sweep stop there:
    [sendPushNotification] logs the error and rethrows it, and so does
    [checkAirQualityAndAlert]; the tokens before it were sent to (one
    console line each), the tokens after it and the pairs after this one
    are not attempted; the history record and the alert already saved
    stay. *)
Theorem push_failure_stops_sweep (env : Env) (w wa : World)
  (pre post : list (User * Location)) (u : User) (l : Location)
  (r : AqiData) (toks1 toks2 : list string) (tok : string) (e : Error) :
  pairsOf (users w) = pre ++ (u, l) :: post ->
  checkPairs env pre w = (wa, Ok tt) ->
  readingAt env l = Ok r ->
  num_geb (aqi_value r) (threshold (alertPreferences u)) = true ->
  pushNotification (notificationMethods (alertPreferences u)) = true ->
  deviceTokens u = toks1 ++ tok :: toks2 ->
  (forall t, In t toks1 ->
             isNormal (fcmSend env (pushFor env wa u l r t)) = true) ->
  fcmSend env (pushFor env wa u l r tok) = Throw e ->
  exists w',
    checkAirQualityAndAlert env w = (w', Throw e)
    /\ fcmRequests w'
       = fcmRequests wa ++ map (pushFor env wa u l r) (toks1 ++ [tok])
    /\ histories w' = histories wa ++ [historyFor wa u l r]
    /\ alerts w' = alerts wa ++ [alertFor env wa u l r]
    /\ console w'
       = console wa
         ++ map (fun t => sentLine env (pushFor env wa u l r t)) toks1
         ++ [ConsoleError "Error sending notification:" e;
             ConsoleError "Error checking AQI and sending alerts:" e].
Proof.
  intros Hps Hpre Hr Hge Hpush Htoks Hsent Hfail.
  pose proof (checkLocation_meets env u l r wa Hr Hge) as Hstep.
  rewrite Hpush, Htoks in Hstep.
  replace (0 <? List.length (toks1 ++ tok :: toks2))%nat with true in Hstep
    by (symmetry; apply Nat.ltb_lt; rewrite length_app; simpl; lia).
  simpl andb in Hstep. rewrite bind_run in Hstep.
  pose proof (push_loop_stops_console env
                (alertNotification env l r
                   (category (getAqiCategory (aqi_value r)))
                   (alertFor env wa u l r))
                toks1 toks2 tok e (afterAlert env wa u l r) Hsent Hfail)
    as Hcon.
  destruct (push_loop_stops env
              (alertNotification env l r
                 (category (getAqiCategory (aqi_value r)))
                 (alertFor env wa u l r))
              toks1 toks2 tok e (afterAlert env wa u l r) Hsent Hfail)
    as (w2 & E2 & F2 & (_ & Hh & Ha & _)).
  rewrite E2 in Hstep, Hcon. simpl in Hcon.
  rewrite (sweep_stops_at_throw env w wa w2 pre post (u, l) e Hps Hpre Hstep).
  eexists. split; [reflexivity|]. simpl.
  rewrite F2, Hh, Ha, Hcon, <- !app_assoc. simpl. auto.
Qed.

(** C6. Two consecutive sweeps in which the same pair is reached and the
    provider gives the same reading [r >= threshold]: each sweep appends
    its own history record for the pair (same content, another ObjectId;
    nothing is deduplicated) and each sweep appends an alert for it (no
    suppression). *)
Theorem repeated_reading_raises_again (env : Env) (w wa wb : World) (dt : Z)
  (pre post : list (User * Location)) (u : User) (l : Location)
  (r : AqiData) :
  pairsOf (users w) = pre ++ (u, l) :: post ->
  readingAt env l = Ok r ->
  num_geb (aqi_value r) (threshold (alertPreferences u)) = true ->
  checkPairs env pre w = (wa, Ok tt) ->
  checkPairs env pre (advanceClock dt (fst (checkAirQualityAndAlert env w)))
  = (wb, Ok tt) ->
  let w1 := fst (checkAirQualityAndAlert env w) in
  let w2 := fst (checkAirQualityAndAlert env (advanceClock dt w1)) in
  let h1 := historyFor wa u l r in
  let h2 := historyFor wb u l r in
  let a1 := alertFor env wa u l r in
  let a2 := alertFor env wb u l r in
  (exists later, histories w1 = histories wa ++ h1 :: later)
  /\ (exists mid later, histories w2 = histories w1 ++ mid ++ h2 :: later)
  /\ historyContent h1 = historyContent h2
  /\ (hist_id h1 < hist_id h2)%nat
  /\ (exists later, alerts w1 = alerts wa ++ a1 :: later)
  /\ (exists mid later, alerts w2 = alerts w1 ++ mid ++ a2 :: later)
  /\ (alert_id a1 < alert_id a2)%nat.
Proof.
  intros Hps Hr Hge Hpre1 Hpre2 w1 w2 h1 h2 a1 a2.
  (* first sweep *)
  destruct (sweep_through env w wa pre post (u, l) Hps Hpre1)
    as (_ & _ & N1 & (hs1 & Hhs1 & _) & (as1 & Has1 & _)).
  simpl in N1, Hhs1, Has1. fold w1 in N1, Hhs1, Has1.
  destruct (checkLocation_meets_store env u l r wa Hr Hge)
    as (_ & Hh1 & Ha1 & Hn1 & _).
  rewrite Hh1 in Hhs1. rewrite Ha1 in Has1. rewrite Hn1 in N1.
  simpl in Hhs1, Has1, N1.
  (* second sweep *)
  destruct (sweep_extends env w) as (U1 & _). fold w1 in U1.
  assert (Hps2 : pairsOf (users (advanceClock dt w1)) = pre ++ (u, l) :: post)
    by (simpl; rewrite U1; exact Hps).
  fold w1 in Hpre2.
  pose proof (checkPairs_extends env pre (advanceClock dt w1)) as Eb.
  rewrite Hpre2 in Eb.
  destruct Eb as (_ & _ & Nb & (hsb & Hhsb & _) & (asb & Hasb & _)).
  simpl in Nb, Hhsb, Hasb.
  destruct (sweep_through env (advanceClock dt w1) wb pre post (u, l)
              Hps2 Hpre2)
    as (_ & _ & _ & (hs2 & Hhs2 & _) & (as2 & Has2 & _)).
  simpl in Hhs2, Has2. fold w2 in Hhs2, Has2.
  destruct (checkLocation_meets_store env u l r wb Hr Hge)
    as (_ & Hh2 & Ha2 & _).
  rewrite Hh2 in Hhs2. rewrite Ha2 in Has2. simpl in Hhs2, Has2.
  repeat split.
  - exists hs1. rewrite Hhs1, <- app_assoc. reflexivity.
  - exists hsb, hs2. rewrite Hhs2, Hhsb, <- !app_assoc. reflexivity.
  - subst h1 h2. simpl. lia.
  - exists as1. rewrite Has1, <- app_assoc. reflexivity.
  - exists asb, as2. rewrite Has2, Hasb, <- !app_assoc. reflexivity.
  - subst a1 a2. simpl. lia.
Qed.

(** ** Acknowledging an alert *)




(** ** Trend aggregates *)

(** The arithmetic is that of doubles: exact on small integers and on
    dyadic fractions, rounded where the result is not a double. *)
Example binary64_arithmetic :
  num_add (num_of_Z 120) (num_of_Z 80) = num_of_Z 200
  /\ num_add (Fin (1 # 2)) (Fin (1 # 4)) = Fin (3 # 4)
  /\ num_div_length (num_of_Z 240) 3 = num_of_Z 80
  /\ num_div_length (num_of_Z 122) 3
     = Fin (5723324526450005 # 140737488355328)
  /\ num_div_length (num_of_Z 0) 0 = NaN
  /\ num_add PInf NInf = NaN.
Proof. vm_compute. repeat split; reflexivity. Qed.





Lemma sortByDate_nil : sortByDate [] = [].
Proof. reflexivity. Qed.



(** * The statements on the sample deployments *)

Lemma threshold_alert_iff_witness :
  let w := worldOf [alice] in
  let wa := fst (checkPairs sampleEnv [(alice, home)] w) in
  (num_geb (aqi_value reading150) (threshold (alertPreferences alice)) = true
   <-> exists later,
         alerts (fst (checkAirQualityAndAlert sampleEnv w))
         = alerts wa ++ alertFor sampleEnv wa alice park reading150 :: later)
  /\ (num_geb (aqi_value reading150) (threshold (alertPreferences alice))
      = false ->
      snd (checkLocation sampleEnv alice park wa) = Ok tt
      /\ alerts (fst (checkLocation sampleEnv alice park wa)) = alerts wa
      /\ fcmRequests (fst (checkLocation sampleEnv alice park wa))
         = fcmRequests wa).
Proof.
  intros w wa.
  apply (threshold_alert_iff sampleEnv w wa [(alice, home)] []);
    vm_compute; reflexivity.
Defined.

Lemma history_recorded_once_witness :
  let w := worldOf [alice] in
  let wa := fst (checkPairs sampleEnv [(alice, home)] w) in
  histories (fst (checkLocation sampleEnv alice park wa))
  = histories wa ++ [historyFor wa alice park reading150]
  /\ exists later,
       histories (fst (checkAirQualityAndAlert sampleEnv w))
       = histories wa ++ historyFor wa alice park reading150 :: later
       /\ (List.length later <= List.length (@nil (User * Location)))%nat
       /\ Forall (fun h =>
                   (hist_id (historyFor wa alice park reading150)
                    < hist_id h)%nat
                   /\ exists p, In p (@nil (User * Location))
                                /\ hist_userId h = user_id (fst p)
                                /\ hist_location h = placeOf (snd p))
            later.
Proof.
  intros w wa.
  apply (history_recorded_once sampleEnv w wa [(alice, home)] []);
    vm_compute; reflexivity.
Defined.

Lemma repeated_reading_raises_again_witness :
  let w := worldOf [alice] in
  let wa := fst (checkPairs sampleEnv [(alice, home)] w) in
  let w1 := fst (checkAirQualityAndAlert sampleEnv w) in
  let wb :=
    fst (checkPairs sampleEnv [(alice, home)] (advanceClock 900000 w1)) in
  let w2 := fst (checkAirQualityAndAlert sampleEnv (advanceClock 900000 w1)) in
  let h1 := historyFor wa alice park reading150 in
  let h2 := historyFor wb alice park reading150 in
  let a1 := alertFor sampleEnv wa alice park reading150 in
  let a2 := alertFor sampleEnv wb alice park reading150 in
  (exists later, histories w1 = histories wa ++ h1 :: later)
  /\ (exists mid later, histories w2 = histories w1 ++ mid ++ h2 :: later)
  /\ historyContent h1 = historyContent h2
  /\ (hist_id h1 < hist_id h2)%nat
  /\ (exists later, alerts w1 = alerts wa ++ a1 :: later)
  /\ (exists mid later, alerts w2 = alerts w1 ++ mid ++ a2 :: later)
  /\ (alert_id a1 < alert_id a2)%nat.
Proof.
  intros w wa w1 wb.
  apply (repeated_reading_raises_again sampleEnv w wa wb 900000
           [(alice, home)] [] alice park reading150);
    vm_compute; reflexivity.
Defined.


(** C2, counterexample.  Bob has two locations; the fetch fails for the
    first, and the second would give 150 against a threshold of 100.  The
    sweep throws and leaves no history record and no alert. *)
Lemma pair_failure_isolation_counterexample :
  readingAt sampleEnv depot = Throw (MkError "timeout")
  /\ readingAt sampleEnv park = Ok reading150
  /\ num_geb (aqi_value reading150) (threshold (alertPreferences bob)) = true
  /\ pairsOf (users (worldOf [bob])) = [(bob, depot); (bob, park)]
  /\ snd (checkAirQualityAndAlert sampleEnv (worldOf [bob]))
     = Throw (MkError "timeout")
  /\ histories (fst (checkAirQualityAndAlert sampleEnv (worldOf [bob]))) = []
  /\ alerts (fst (checkAirQualityAndAlert sampleEnv (worldOf [bob]))) = [].
Proof. vm_compute. repeat split; reflexivity. Qed.

Lemma fetch_failure_stops_sweep_witness :
  let w := worldOf [bob] in
  exists w',
    checkAirQualityAndAlert sampleEnv w = (w', Throw (MkError "timeout"))
    /\ histories w' = histories w
    /\ alerts w' = alerts w
    /\ fcmRequests w' = fcmRequests w
    /\ nextId w' = nextId w
    /\ console w'
       = console w
         ++ [ConsoleError "Error fetching AQI data:" (MkError "timeout");
             ConsoleError "Error checking AQI and sending alerts:"
               (MkError "timeout")].
Proof.
  intros w.
  apply (fetch_failure_stops_sweep sampleEnv w w [] [(bob, park)]
           (bob, depot)); reflexivity.
Defined.

(** C3, counterexample.  Carol's garden was Good (40); the new reading is
    80, Moderate, below her threshold of 100.  The sweep completes and the
    Alert collection stays empty: no alert of any type is produced. *)
Lemma change_alert_counterexample :
  In gardenBefore (histories carolWorld)
  /\ aqi_category (hist_aqi gardenBefore) = "Good"
  /\ readingAt sampleEnv garden = Ok reading80
  /\ aqi_category reading80 = "Moderate"
  /\ num_ltb (aqi_value reading80) (threshold (alertPreferences carol)) = true
  /\ snd (checkAirQualityAndAlert sampleEnv carolWorld) = Ok tt
  /\ alerts (fst (checkAirQualityAndAlert sampleEnv carolWorld)) = []
  /\ fcmRequests (fst (checkAirQualityAndAlert sampleEnv carolWorld)) = []
  /\ histories (fst (checkAirQualityAndAlert sampleEnv carolWorld))
     = [gardenBefore; historyFor carolWorld carol garden reading80].
Proof.
  split; [left; reflexivity|]. vm_compute. repeat split; reflexivity.
Qed.

Lemma below_threshold_no_change_alert_witness :
  checkLocation sampleEnv carol garden carolWorld
  = (afterHistory carolWorld carol garden reading80, Ok tt)
  /\ alerts (afterHistory carolWorld carol garden reading80)
     = alerts carolWorld
  /\ fcmRequests (afterHistory carolWorld carol garden reading80)
     = fcmRequests carolWorld
  /\ exists later,
       alerts (fst (checkAirQualityAndAlert sampleEnv carolWorld))
       = alerts carolWorld ++ later
       /\ Forall (fun a => (S (nextId carolWorld) < alert_id a)%nat) later.
Proof.
  apply (below_threshold_no_change_alert sampleEnv carolWorld carolWorld
           [] [] carol garden reading80 gardenBefore);
    try reflexivity.
  - left. reflexivity.
  - vm_compute. discriminate.
Defined.

(** C4, counterexample.  Dave has the tokens "stale" and "tokB" and two
    locations, both above his threshold.  The transport rejects "stale":
    the sweep throws, "tokB" is never sent to (one request was made), and
    the second location gets neither history record nor alert. *)
Lemma channel_isolation_counterexample :
  deviceTokens dave = ["stale"; "tokB"]
  /\ pairsOf (users (worldOf [dave])) = [(dave, home); (dave, park)]
  /\ readingAt sampleEnv home = Ok reading120
  /\ readingAt sampleEnv park = Ok reading150
  /\ isNormal (fcmSend sampleEnv
                 (pushFor sampleEnv (worldOf [dave]) dave home reading120
                    "tokB")) = true
  /\ snd (checkAirQualityAndAlert sampleEnv (worldOf [dave]))
     = Throw (MkError "registration-token-not-registered")
  /\ fcmRequests (fst (checkAirQualityAndAlert sampleEnv (worldOf [dave])))
     = [pushFor sampleEnv (worldOf [dave]) dave home reading120 "stale"]
  /\ histories (fst (checkAirQualityAndAlert sampleEnv (worldOf [dave])))
     = [historyFor (worldOf [dave]) dave home reading120]
  /\ alerts (fst (checkAirQualityAndAlert sampleEnv (worldOf [dave])))
     = [alertFor sampleEnv (worldOf [dave]) dave home reading120].
Proof. vm_compute. repeat split; reflexivity. Qed.

Lemma push_failure_stops_sweep_witness :
  let w := worldOf [dave] in
  exists w',
    checkAirQualityAndAlert sampleEnv w
    = (w', Throw (MkError "registration-token-not-registered"))
    /\ fcmRequests w'
       = fcmRequests w
         ++ map (pushFor sampleEnv w dave home reading120) ([] ++ ["stale"])
    /\ histories w' = histories w ++ [historyFor w dave home reading120]
    /\ alerts w' = alerts w ++ [alertFor sampleEnv w dave home reading120]
    /\ console w'
       = console w
         ++ map (fun t => sentLine sampleEnv
                            (pushFor sampleEnv w dave home reading120 t)) []
         ++ [ConsoleError "Error sending notification:"
               (MkError "registration-token-not-registered");
             ConsoleError "Error checking AQI and sending alerts:"
               (MkError "registration-token-not-registered")].
Proof.
  intros w.
  apply (push_failure_stops_sweep sampleEnv w w [] [(dave, park)] dave home
           reading120 [] ["tokB"] "stale");
    try reflexivity.
  intros t [].
Defined.



(** * Further properties of the services *)


Lemma category_above_500 (v : num) :
  num_ltb (num_of_Z 500) v = true -> category (getAqiCategory v) = "Extreme"%string.
Proof.
  intros Hgt. rewrite getAqiCategory_cases.
  pose proof (num_ltb_not_leb _ _ Hgt) as H500.
  split_tests v; try reflexivity; exfalso;
    match goal with
    | H : num_leb v ?b = true |- _ =>
        assert (Hc : num_leb v (num_of_Z 500) = true)
          by (eapply num_leb_trans; [exact H | reflexivity]);
        congruence
    end.
Qed.

(** X1. Every category name, known or not, gets between one and four
    recommendations, and a value above 500 gets the fallback list of the
    [default] branch. *)
Theorem recommendations_never_empty :
  (forall c, (1 <= List.length (getRecommendations c) <= 4)%nat)
  /\ (forall v, num_ltb (num_of_Z 500) v = true ->
        getRecommendations (category (getAqiCategory v))
        = ["Avoid all outdoor activities.";
           "Remain indoors with air purifiers if available.";
           "Follow emergency instructions from local authorities."]%string).
Proof.
  split.
  - intros c. unfold getRecommendations.
    repeat match goal with
      | |- context [if ?b then _ else _] => destruct b
      end; simpl; lia.
  - intros v Hv. rewrite (category_above_500 v Hv). reflexivity.
Qed.

Lemma recommendations_never_empty_witness :
  getRecommendations (category (getAqiCategory (num_of_Z 700)))
  = ["Avoid all outdoor activities.";
     "Remain indoors with air purifiers if available.";
     "Follow emergency instructions from local authorities."]%string.
Proof.
  apply (proj2 recommendations_never_empty (num_of_Z 700)). reflexivity.
Defined.

(** X2. [fetchAqiData] reads and writes no collection and sends nothing:
    it returns without a trace on success, and on failure logs the error
    once before rethrowing it. *)
Theorem fetchAqiData_effects (env : Env) (la lo : num) (w : World) :
  let w' := fst (fetchAqiData env la lo w) in
  users w' = users w /\ histories w' = histories w /\ alerts w' = alerts w
  /\ fcmRequests w' = fcmRequests w /\ nextId w' = nextId w
  /\ clock w' = clock w
  /\ match snd (fetchAqiData env la lo w) with
     | Ok _ => console w' = console w
     | Throw e =>
         console w' = console w ++ [ConsoleError "Error fetching AQI data:" e]
     end.
Proof.
  rewrite fetchAqiData_result.
  destruct (snd (fetchAqiData env la lo emptyWorld)) as [r|e]; simpl;
    repeat split; reflexivity.
Qed.

(** X3. [fetchAqiData] succeeds exactly when the provider resolves with a
    body whose status is "ok" and that carries a data object; the reading
    then has the provider's value and pollutant, the classifier's category
    for that value and the source "WAQI". *)
Theorem fetchAqiData_succeeds_iff (env : Env) (la lo : num) (w : World)
  (r : AqiData) :
  snd (fetchAqiData env la lo w) = Ok r
  <-> exists b d,
        axiosGet env la lo = AxiosResolve (Some b)
        /\ waqi_status b = "ok"%string
        /\ waqi_data b = Some d
        /\ r = mkAqi (waqi_aqi d) (category (getAqiCategory (waqi_aqi d)))
                 (waqi_dominentpol d) "WAQI".
Proof.
  unfold fetchAqiData, tryCatch. split.
  - destruct (axiosGet env la lo) as [e|[b|]]; simpl; try discriminate.
    destruct (String.eqb (waqi_status b) "ok") eqn:Hs; simpl;
      try discriminate.
    destruct (waqi_data b) as [d|] eqn:Hd; simpl; try discriminate.
    intros H. injection H as <-.
    exists b, d. apply String.eqb_eq in Hs. auto.
  - intros (b & d & Hget & Hs & Hd & ->).
    rewrite Hget, Hs, Hd. reflexivity.
Qed.

Lemma checkLocation_all_sent (env : Env) (u : User) (l : Location)
  (r : AqiData) (w : World) :
  readingAt env l = Ok r ->
  num_geb (aqi_value r) (threshold (alertPreferences u)) = true ->
  (forall tok, In tok (deviceTokens u) ->
               isNormal (fcmSend env (pushFor env w u l r tok)) = true) ->
  snd (checkLocation env u l w) = Ok tt
  /\ fcmRequests (fst (checkLocation env u l w))
     = fcmRequests w
       ++ (if pushNotification (notificationMethods (alertPreferences u))
           then map (pushFor env w u l r) (deviceTokens u)
           else [])
  /\ histories (fst (checkLocation env u l w))
     = histories w ++ [historyFor w u l r]
  /\ alerts (fst (checkLocation env u l w))
     = alerts w ++ [alertFor env w u l r].
Proof.
  intros Hr Hge Hsent.
  rewrite (checkLocation_meets env u l r w Hr Hge). rewrite bind_run.
  destruct (pushNotification (notificationMethods (alertPreferences u)));
    simpl andb.
  - destruct (deviceTokens u) as [|t ts] eqn:Htoks.
    + simpl. destruct (email _); simpl; rewrite app_nil_r; auto.
    + replace (0 <? List.length (t :: ts))%nat with true by reflexivity.
      change (true && true) with true. cbv iota.
      destruct (push_loop_all_sent env
                  (alertNotification env l r
                     (category (getAqiCategory (aqi_value r)))
                     (alertFor env w u l r))
                  (t :: ts) (afterAlert env w u l r) Hsent)
        as (w2 & E2 & F2 & (_ & Hh & Ha & _)).
      rewrite E2. destruct (email _); simpl; rewrite F2, Hh, Ha; auto.
  - unfold ret at 1. destruct (email _); simpl; rewrite app_nil_r; auto.
Qed.

(** X4. For a pair whose reading meets the threshold, when the transport
    accepts the message of every device token, the body returns normally
    and has made one request per token, in the order of the tokens, all
    for the alert just saved; with push notifications switched off it has
    made none. *)
Theorem dispatch_one_request_per_token (env : Env) (u : User) (l : Location)
  (r : AqiData) (w : World) :
  readingAt env l = Ok r ->
  num_geb (aqi_value r) (threshold (alertPreferences u)) = true ->
  (forall tok, In tok (deviceTokens u) ->
               isNormal (fcmSend env (pushFor env w u l r tok)) = true) ->
  snd (checkLocation env u l w) = Ok tt
  /\ fcmRequests (fst (checkLocation env u l w))
     = fcmRequests w
       ++ (if pushNotification (notificationMethods (alertPreferences u))
           then map (pushFor env w u l r) (deviceTokens u)
           else [])
  /\ histories (fst (checkLocation env u l w))
     = histories w ++ [historyFor w u l r]
  /\ alerts (fst (checkLocation env u l w))
     = alerts w ++ [alertFor env w u l r].
Proof. apply checkLocation_all_sent. Qed.

Lemma dispatch_one_request_per_token_witness :
  let w := worldOf [alice] in
  snd (checkLocation sampleEnv alice home w) = Ok tt
  /\ fcmRequests (fst (checkLocation sampleEnv alice home w))
     = fcmRequests w
       ++ (if pushNotification (notificationMethods (alertPreferences alice))
           then map (pushFor sampleEnv w alice home reading120)
                  (deviceTokens alice)
           else [])
  /\ histories (fst (checkLocation sampleEnv alice home w))
     = histories w ++ [historyFor w alice home reading120]
  /\ alerts (fst (checkLocation sampleEnv alice home w))
     = alerts w ++ [alertFor sampleEnv w alice home reading120].
Proof.
  intros w.
  apply (dispatch_one_request_per_token sampleEnv alice home reading120 w);
    try reflexivity.
  intros tok [<-|[<-|[]]]; reflexivity.
Defined.

(** X5. Without push notifications enabled, or without a registered device
    token, a reading that meets the threshold still saves the history
    record and the alert, reaches the transport not at all and returns
    normally, whatever the transport would answer. *)
Theorem no_channel_no_dispatch (env : Env) (u : User) (l : Location)
  (r : AqiData) (w : World) :
  readingAt env l = Ok r ->
  num_geb (aqi_value r) (threshold (alertPreferences u)) = true ->
  pushNotification (notificationMethods (alertPreferences u)) = false
  \/ deviceTokens u = [] ->
  checkLocation env u l w = (afterAlert env w u l r, Ok tt).
Proof.
  intros Hr Hge Hoff.
  rewrite (checkLocation_meets env u l r w Hr Hge). rewrite bind_run.
  assert (Hc : pushNotification (notificationMethods (alertPreferences u))
               && (0 <? List.length (deviceTokens u))%nat = false).
  { destruct Hoff as [-> | ->]; [reflexivity|]. apply andb_false_r. }
  rewrite Hc. unfold ret at 1. destruct (email _); reflexivity.
Qed.

Lemma no_channel_no_dispatch_witness :
  let u := mkUser 6 "fay@example.org" "Fay" [home]
             (mkPrefs (num_of_Z 100) (mkMethods false true)) ["stale"] in
  checkLocation sampleEnv u home (worldOf [u])
  = (afterAlert sampleEnv (worldOf [u]) u home reading120, Ok tt).
Proof.
  intros u.
  apply (no_channel_no_dispatch sampleEnv u home reading120 (worldOf [u]));
    try reflexivity.
  left. reflexivity.
Defined.

(** X6. The email preference has no effect on a pair's processing: apart
    from the flag itself nothing the body does or returns depends on it,
    and no email is ever sent. *)
Theorem email_preference_ignored (env : Env) (u : User) (l : Location)
  (b : bool) (w : World) :
  checkLocation env (withEmail b u) l w = checkLocation env u l w.
Proof.
  unfold checkLocation. rewrite !bind_run.
  destruct (fetchAqiData env (loc_latitude l) (loc_longitude l) w)
    as [w1 [r|e]]; [|reflexivity].
  rewrite !bind_run. unfold saveAqiHistory at 1 2.
  cbn [withEmail user_id alertPreferences threshold notificationMethods
       pushNotification email deviceTokens].
  destruct (num_geb (aqi_value r) (threshold (alertPreferences u)));
    [|reflexivity].
  rewrite !bind_run. unfold saveAlert at 1 2. cbn beta iota zeta.
  rewrite !bind_run.
  match goal with
  | |- context [match ?m ?w0 with _ => _ end] =>
      destruct (m w0) as [w2 [[]|e]]
  end; [|reflexivity].
  destruct b;
    destruct (email (notificationMethods (alertPreferences u)));
    reflexivity.
Qed.

(** ** The sweep as a whole *)

(** X7. With no user, or only users without locations, the sweep fetches
    nothing, writes nothing, logs its completion and returns normally. *)
Theorem empty_sweep_completes (env : Env) (w : World) :
  pairsOf (users w) = [] ->
  checkAirQualityAndAlert env w
  = (mkWorld (users w) (histories w) (alerts w) (fcmRequests w)
       (console w ++ [ConsoleLog "AQI check and alert process completed"])
       (nextId w) (clock w), Ok tt).
Proof.
  intros Hps. apply sweep_completes. rewrite Hps. reflexivity.
Qed.

Lemma empty_sweep_completes_witness :
  let idle := mkUser 7 "gus@example.org" "Gus" [] pushOnly ["tokG"] in
  checkAirQualityAndAlert sampleEnv (worldOf [idle])
  = (mkWorld (users (worldOf [idle])) (histories (worldOf [idle]))
       (alerts (worldOf [idle])) (fcmRequests (worldOf [idle]))
       (console (worldOf [idle])
        ++ [ConsoleLog "AQI check and alert process completed"])
       (nextId (worldOf [idle])) (clock (worldOf [idle])), Ok tt).
Proof.
  intros idle. apply (empty_sweep_completes sampleEnv (worldOf [idle])).
  reflexivity.
Defined.

Lemma checkPairs_all_ok (env : Env) (ps : list (User * Location))
  (w : World) :
  (forall p, In p ps -> isNormal (readingAt env (snd p)) = true) ->
  (forall m, isNormal (fcmSend env m) = true) ->
  exists w',
    checkPairs env ps w = (w', Ok tt)
    /\ List.length (histories w')
       = (List.length (histories w) + List.length ps)%nat
    /\ List.length (alerts w')
       = (List.length (alerts w)
          + List.length (filter (qualifies env) ps))%nat.
Proof.
  intros Hfetch Hsend. revert w.
  induction ps as [|[u l] ps IH]; intros w.
  - exists w. simpl. split; [reflexivity|]. lia.
  - destruct (readingAt env l) as [r|e] eqn:Hr.
    2:{ specialize (Hfetch (u, l) (or_introl eq_refl)). simpl in Hfetch.
        rewrite Hr in Hfetch. discriminate. }
    assert (Hstep : exists w1,
               checkLocation env u l w = (w1, Ok tt)
               /\ List.length (histories w1) = S (List.length (histories w))
               /\ List.length (alerts w1)
                  = (List.length (alerts w)
                     + if qualifies env (u, l) then 1 else 0)%nat).
    { unfold qualifies. simpl. rewrite Hr.
      destruct (num_geb (aqi_value r) (threshold (alertPreferences u)))
        eqn:Hc.
      - destruct (checkLocation_all_sent env u l r w Hr Hc
                    (fun tok _ => Hsend _)) as (Hres & _ & Hh & Ha).
        destruct (checkLocation env u l w) as [w1 res]. simpl in *.
        subst res. exists w1. split; [reflexivity|].
        rewrite Hh, Ha, !length_app. simpl. lia.
      - rewrite (checkLocation_below env u l r w Hr Hc).
        eexists. split; [reflexivity|]. simpl.
        rewrite length_app. simpl. lia. }
    destruct Hstep as (w1 & E1 & Hh1 & Ha1).
    destruct (IH (fun p Hp => Hfetch p (or_intror Hp)) w1)
      as (w2 & E2 & Hh2 & Ha2).
    exists w2. unfold checkPairs in *. rewrite forOf_cons. simpl fst.
    simpl snd. rewrite E1. split; [exact E2|].
    simpl filter. rewrite Hh2, Ha2, Hh1, Ha1.
    destruct (qualifies env (u, l)); simpl; lia.
Qed.

(** X8. When every fetch of the sweep succeeds and the transport accepts
    every message, the sweep returns normally, having added one history
    record per pair and one alert per pair whose reading meets its user's
    threshold. *)
Theorem sweep_all_ok_counts (env : Env) (w : World) :
  (forall p, In p (pairsOf (users w)) ->
             isNormal (readingAt env (snd p)) = true) ->
  (forall m, isNormal (fcmSend env m) = true) ->
  snd (checkAirQualityAndAlert env w) = Ok tt
  /\ List.length (histories (fst (checkAirQualityAndAlert env w)))
     = (List.length (histories w) + List.length (pairsOf (users w)))%nat
  /\ List.length (alerts (fst (checkAirQualityAndAlert env w)))
     = (List.length (alerts w)
        + List.length (filter (qualifies env) (pairsOf (users w))))%nat.
Proof.
  intros Hfetch Hsend.
  destruct (checkPairs_all_ok env (pairsOf (users w)) w Hfetch Hsend)
    as (w1 & E & Hh & Ha).
  rewrite (sweep_completes env w w1 E). simpl. auto.
Qed.

(** X9. Whatever fails, a sweep only appends: the users and the clock are
    as before, the history records and alerts present before are still
    there, in place, and the added ones carry ObjectIds taken from the
    counter. *)
Theorem sweep_only_appends (env : Env) (w : World) :
  let w' := fst (checkAirQualityAndAlert env w) in
  users w' = users w /\ clock w' = clock w
  /\ (exists hs,
        histories w' = histories w ++ hs
        /\ Forall (fun h => (nextId w <= hist_id h < nextId w')%nat) hs)
  /\ (exists als,
        alerts w' = alerts w ++ als
        /\ Forall (fun a => (nextId w < alert_id a < nextId w')%nat) als).
Proof.
  destruct (sweep_extends env w) as (U & C & _ & H & A). auto.
Qed.

Lemma alertJustified_weaken (ps ps' : list (User * Location))
  (hs hs' : list AqiHistory) (a : Alert) :
  incl ps ps' -> incl hs hs' ->
  alertJustified ps hs a -> alertJustified ps' hs' a.
Proof.
  intros Hps Hhs (u & l & h & Hp & Hh & rest).
  exists u, l, h. split; [apply Hps; exact Hp|].
  split; [apply Hhs; exact Hh | exact rest].
Qed.

Lemma checkLocation_new_records (env : Env) (u : User) (l : Location)
  (w : World) :
  exists hs als,
    histories (fst (checkLocation env u l w)) = histories w ++ hs
    /\ alerts (fst (checkLocation env u l w)) = alerts w ++ als
    /\ Forall (alertJustified [(u, l)] hs) als.
Proof.
  destruct (readingAt env l) as [r|e] eqn:Hr.
  - destruct (num_geb (aqi_value r) (threshold (alertPreferences u))) eqn:Hc.
    + destruct (checkLocation_meets_store env u l r w Hr Hc)
        as (_ & Hh & Ha & _).
      exists [historyFor w u l r], [alertFor env w u l r].
      split; [exact Hh|]. split; [exact Ha|].
      constructor; [|constructor].
      exists u, l, (historyFor w u l r). simpl.
      pose proof (readingAt_category env l r Hr) as Hcat.
      repeat split; simpl; auto; rewrite Hcat; reflexivity.
    + rewrite (checkLocation_below env u l r w Hr Hc). simpl.
      exists [historyFor w u l r], []. rewrite app_nil_r. auto.
  - rewrite (checkLocation_fetch_throw env u l e w Hr). simpl.
    exists [], []. rewrite !app_nil_r. auto.
Qed.

Lemma checkPairs_new_records (env : Env) (ps : list (User * Location))
  (w : World) :
  exists hs als,
    histories (fst (checkPairs env ps w)) = histories w ++ hs
    /\ alerts (fst (checkPairs env ps w)) = alerts w ++ als
    /\ Forall (alertJustified ps hs) als.
Proof.
  revert w. induction ps as [|[u l] ps IH]; intros w.
  - exists [], []. simpl. rewrite !app_nil_r. auto.
  - destruct (checkLocation_new_records env u l w)
      as (hs1 & als1 & Hh1 & Ha1 & J1).
    unfold checkPairs. rewrite forOf_cons.
    change (fst (u, l)) with u. change (snd (u, l)) with l.
    destruct (checkLocation env u l w) as [w1 [[]|e]]; simpl in Hh1, Ha1.
    + destruct (IH w1) as (hs2 & als2 & Hh2 & Ha2 & J2).
      unfold checkPairs in Hh2, Ha2.
      exists (hs1 ++ hs2), (als1 ++ als2).
      split; [rewrite Hh2, Hh1, app_assoc; reflexivity|].
      split; [rewrite Ha2, Ha1, app_assoc; reflexivity|].
      apply Forall_app. split.
      * eapply Forall_impl; [|exact J1]. intros a.
        apply alertJustified_weaken.
        -- intros x [<-|[]]. left. reflexivity.
        -- apply incl_appl, incl_refl.
      * eapply Forall_impl; [|exact J2]. intros a.
        apply alertJustified_weaken.
        -- apply incl_tl, incl_refl.
        -- apply incl_appr, incl_refl.
    + simpl. exists hs1, als1. split; [exact Hh1|]. split; [exact Ha1|].
      eapply Forall_impl; [|exact J1]. intros a.
      apply alertJustified_weaken.
      * intros x [<-|[]]. left. reflexivity.
      * apply incl_refl.
Qed.

(** X10. Every alert a sweep adds is backed by a history record added in
    the same sweep, saved just before it for the same user and place with
    the same reading; its value meets the threshold of that user, it is
    unacknowledged, and its category and recommendations are the
    classifier's for that value.  This holds whether the sweep completes
    or throws. *)
Theorem new_alerts_justified (env : Env) (w : World) :
  exists hs als,
    histories (fst (checkAirQualityAndAlert env w)) = histories w ++ hs
    /\ alerts (fst (checkAirQualityAndAlert env w)) = alerts w ++ als
    /\ Forall (alertJustified (pairsOf (users w)) hs) als.
Proof.
  destruct (checkPairs_new_records env (pairsOf (users w)) w)
    as (hs & als & Hh & Ha & J).
  destruct (sweep_store env w) as ((_ & Sh & Sa & _) & _).
  exists hs, als. rewrite Sh, Sa. auto.
Qed.

(** ** ObjectIds stay fresh *)

Lemma idsFresh_sameStore (w w' : World) :
  sameStore w w' -> idsFresh w -> idsFresh w'.
Proof.
  intros (_ & Hh & Ha & Hn & _) (F1 & F2 & ND).
  unfold idsFresh. rewrite Hh, Ha, Hn. auto.
Qed.

Lemma idsFresh_afterHistory (w : World) (u : User) (l : Location)
  (r : AqiData) :
  idsFresh w -> idsFresh (afterHistory w u l r).
Proof.
  intros (F1 & F2 & ND). unfold idsFresh. simpl.
  split; [|split].
  - apply Forall_app. split.
    + eapply Forall_impl; [|exact F1]. simpl. intros; lia.
    + constructor; [simpl; lia | constructor].
  - eapply Forall_impl; [|exact F2]. simpl. intros; lia.
  - rewrite map_app. simpl. rewrite <- app_assoc. simpl.
    eapply Permutation_NoDup; [apply Permutation_middle|].
    constructor; [|exact ND].
    intros Hin. apply in_app_or in Hin. destruct Hin as [Hin|Hin].
    + apply in_map_iff in Hin. destruct Hin as (h & E & Hh).
      rewrite Forall_forall in F1. specialize (F1 h Hh). lia.
    + apply in_map_iff in Hin. destruct Hin as (a & E & Ha).
      rewrite Forall_forall in F2. specialize (F2 a Ha). lia.
Qed.

Lemma idsFresh_afterAlert (env : Env) (w : World) (u : User) (l : Location)
  (r : AqiData) :
  idsFresh w -> idsFresh (afterAlert env w u l r).
Proof.
  intros Hw. pose proof (idsFresh_afterHistory w u l r Hw) as (F1 & F2 & ND).
  simpl in F1, F2, ND. unfold idsFresh. simpl.
  split; [|split].
  - eapply Forall_impl; [|exact F1]. simpl. intros; lia.
  - apply Forall_app. split.
    + eapply Forall_impl; [|exact F2]. simpl. intros; lia.
    + constructor; [simpl; lia | constructor].
  - rewrite (map_app alert_id). simpl. rewrite app_assoc.
    eapply Permutation_NoDup;
      [apply Permutation_cons_append|].
    constructor; [|exact ND].
    intros Hin. apply in_app_or in Hin. destruct Hin as [Hin|Hin].
    + apply in_map_iff in Hin. destruct Hin as (h & E & Hh).
      rewrite Forall_forall in F1. specialize (F1 h Hh). simpl in F1. lia.
    + apply in_map_iff in Hin. destruct Hin as (a & E & Ha).
      rewrite Forall_forall in F2. specialize (F2 a Ha). simpl in F2. lia.
Qed.

Lemma idsFresh_checkLocation (env : Env) (u : User) (l : Location)
  (w : World) :
  idsFresh w -> idsFresh (fst (checkLocation env u l w)).
Proof.
  intros Hw. destruct (readingAt env l) as [r|e] eqn:Hr.
  - destruct (num_geb (aqi_value r) (threshold (alertPreferences u))) eqn:Hc.
    + eapply idsFresh_sameStore;
        [apply (checkLocation_meets_store env u l r w Hr Hc)|].
      apply idsFresh_afterAlert. exact Hw.
    + rewrite (checkLocation_below env u l r w Hr Hc). simpl.
      apply idsFresh_afterHistory. exact Hw.
  - rewrite (checkLocation_fetch_throw env u l e w Hr). simpl.
    eapply idsFresh_sameStore; [apply logError_sameStore | exact Hw].
Qed.

Lemma idsFresh_checkPairs (env : Env) (ps : list (User * Location))
  (w : World) :
  idsFresh w -> idsFresh (fst (checkPairs env ps w)).
Proof.
  unfold checkPairs. revert w. induction ps as [|p ps IH]; intros w Hw.
  - exact Hw.
  - rewrite forOf_cons.
    pose proof (idsFresh_checkLocation env (fst p) (snd p) w Hw) as H1.
    destruct (checkLocation env (fst p) (snd p) w) as [w1 [[]|e]];
      simpl in H1 |- *.
    + apply IH. exact H1.
    + exact H1.
Qed.

(** X11. If the ObjectIds of the stored history records and alerts are
    below the counter and pairwise distinct, they still are after a sweep,
    however it ends: no two documents ever share an ObjectId. *)
Theorem sweep_keeps_ids_fresh (env : Env) (w : World) :
  idsFresh w -> idsFresh (fst (checkAirQualityAndAlert env w)).
Proof.
  intros Hw. eapply idsFresh_sameStore; [apply sweep_store|].
  apply idsFresh_checkPairs. exact Hw.
Qed.

(** * Further properties of the routes *)

(** ** Alerts: acknowledge and delete *)







Lemma findOneAndUpdate_twice (filter : Alert -> bool)
  (update : Alert -> Alert) (docs : list Alert) :
  (forall d, filter d = true -> filter (update d) = true) ->
  (forall d, update (update d) = update d) ->
  findOneAndUpdate filter update (fst (findOneAndUpdate filter update docs))
  = findOneAndUpdate filter update docs.
Proof.
  intros Hf Hu. induction docs as [|d docs IH]; simpl; [reflexivity|].
  destruct (filter d) eqn:Hd.
  - simpl. rewrite (Hf d Hd), Hu. reflexivity.
  - destruct (findOneAndUpdate filter update docs) as [rest found] eqn:E.
    simpl in IH |- *. rewrite Hd, IH. reflexivity.
Qed.

(** X13. Acknowledging is idempotent: a second acknowledge of the same
    alert by the same user leaves the world as the first did and gives the
    same answer. *)
Theorem acknowledge_idempotent (alertId userId : ObjectId) (w : World) :
  acknowledgeRoute alertId userId
    (fst (acknowledgeRoute alertId userId w))
  = acknowledgeRoute alertId userId w.
Proof.
  unfold acknowledgeRoute, tryCatch, bind, Alert_findOneAndUpdate.
  pose proof (findOneAndUpdate_twice (matchesIdAndUser alertId userId)
                setAcknowledged (alerts w)
                (fun d H => H) (fun d => eq_refl)) as H2.
  destruct (findOneAndUpdate (matchesIdAndUser alertId userId)
              setAcknowledged (alerts w)) as [docs found] eqn:E.
  simpl in H2.
  destruct found as [a|]; simpl; rewrite H2; reflexivity.
Qed.


(** ** Trend *)






Lemma trendRoute_run (cal : Calendar) (userId : ObjectId)
  (location period : option string) (w : World) :
  trendRoute cal userId location period w
  = (w, Ok (mkResponse 200 true None
              (Some (computeTrends
                       (sortByDate
                          (filter
                             (trendQuery userId location
                                (periodStart cal
                                   (match period with
                                    | Some p => p
                                    | None => "week"%string
                                    end) (clock w))
                                (clock w))
                             (histories w))))) None)).
Proof. reflexivity. Qed.



(** X16. A trend answer depends only on the requesting user's records:
    removing a record of another user from the history collection leaves
    the answer as it is. *)
Theorem trend_ignores_other_users (cal : Calendar) (userId : ObjectId)
  (location period : option string) (w : World)
  (hs1 hs2 : list AqiHistory) (h : AqiHistory) :
  histories w = hs1 ++ h :: hs2 ->
  hist_userId h <> userId ->
  snd (trendRoute cal userId location period w)
  = snd (trendRoute cal userId location period
           (withHistories (hs1 ++ hs2) w)).
Proof.
  intros Hh Hu. rewrite !trendRoute_run. simpl.
  rewrite Hh, !filter_app. simpl.
  assert (Hq : forall s e, trendQuery userId location s e h = false).
  { intros s e. unfold trendQuery.
    destruct (Nat.eqb (hist_userId h) userId) eqn:E; [|reflexivity].
    apply Nat.eqb_eq in E. contradiction. }
  rewrite Hq. reflexivity.
Qed.

Lemma trend_ignores_other_users_witness :
  let w := mkWorld [alice] (histories weekWorld
                            ++ [mkHistory 14 5 (placeOf home)
                                  (mkAqi (num_of_Z 400) "Hazardous" "pm25"
                                     "WAQI") 901900000%Z])
             [] [] [] 30%nat 902000000%Z in
  snd (trendRoute sampleCalendar 1 None None w)
  = snd (trendRoute sampleCalendar 1 None None
           (withHistories (histories weekWorld ++ []) w)).
Proof.
  intros w.
  apply (trend_ignores_other_users sampleCalendar 1 None None w
           (histories weekWorld) []
           (mkHistory 14 5 (placeOf home)
              (mkAqi (num_of_Z 400) "Hazardous" "pm25" "WAQI")
              901900000%Z)).
  - reflexivity.
  - simpl. discriminate.
Defined.

(** X17. A period name other than day, week, month or year is read as a
    week, like an absent one; an empty location name selects every
    location, like an absent one. *)
Theorem trend_defaults (cal : Calendar) (userId : ObjectId)
  (location : option string) (period : string) (w : World) :
  period <> "day"%string -> period <> "month"%string ->
  period <> "year"%string ->
  trendRoute cal userId location (Some period) w
  = trendRoute cal userId location None w
  /\ trendRoute cal userId (Some EmptyString) (Some period) w
     = trendRoute cal userId None None w.
Proof.
  intros Hd Hm Hy.
  assert (Hp : forall t, periodStart cal period t
                         = periodStart cal "week" t).
  { intros t. unfold periodStart.
    apply String.eqb_neq in Hd, Hm, Hy. rewrite Hd, Hm, Hy.
    destruct (String.eqb period "week"); reflexivity. }
  rewrite !trendRoute_run, Hp. split; reflexivity.
Qed.

Lemma trend_defaults_witness :
  trendRoute sampleCalendar 1 None (Some "fortnight"%string) weekWorld
  = trendRoute sampleCalendar 1 None None weekWorld
  /\ trendRoute sampleCalendar 1 (Some EmptyString)
       (Some "fortnight"%string) weekWorld
     = trendRoute sampleCalendar 1 None None weekWorld.
Proof.
  apply (trend_defaults sampleCalendar 1 None "fortnight" weekWorld);
    discriminate.
Defined.

(** ** Users: device tokens and locations *)

Lemma updateById_hit (userId : ObjectId) (update : User -> User)
  (before after : list User) (u : User) :
  (forall x, In x before -> user_id x <> userId) ->
  user_id u = userId ->
  updateById userId update (before ++ u :: after)
  = (before ++ update u :: after, Some (update u)).
Proof.
  intros Hbefore Hu. induction before as [|b before IH]; simpl.
  - rewrite Hu, Nat.eqb_refl. reflexivity.
  - assert (Hb : Nat.eqb (user_id b) userId = false)
      by (apply Nat.eqb_neq, Hbefore; left; reflexivity).
    rewrite Hb.
    rewrite IH by (intros x Hx; apply Hbefore; right; exact Hx).
    reflexivity.
Qed.

Lemma updateById_miss (userId : ObjectId) (update : User -> User)
  (docs : list User) :
  (forall x, In x docs -> user_id x <> userId) ->
  updateById userId update docs = (docs, None).
Proof.
  intros Hnone. induction docs as [|d docs IH]; simpl; [reflexivity|].
  assert (Hd : Nat.eqb (user_id d) userId = false)
    by (apply Nat.eqb_neq, Hnone; left; reflexivity).
  rewrite Hd.
  rewrite IH by (intros x Hx; apply Hnone; right; exact Hx).
  reflexivity.
Qed.

Lemma split_unique_user (us : list User) (u : User) :
  In u us -> NoDup (map user_id us) ->
  exists before after,
    us = before ++ u :: after
    /\ forall x, In x before -> user_id x <> user_id u.
Proof.
  intros Hin Hnd.
  destruct (in_split _ _ Hin) as (before & after & Hsplit).
  exists before, after. split; [exact Hsplit|].
  intros x Hx E. rewrite Hsplit, map_app in Hnd. simpl in Hnd.
  apply NoDup_remove_2 in Hnd. apply Hnd.
  apply in_or_app. left. rewrite <- E. apply in_map. exact Hx.
Qed.

Lemma findById_present (us before after : list User) (u : User) :
  us = before ++ u :: after ->
  (forall x, In x before -> user_id x <> user_id u) ->
  User_findById (user_id u) us = Some u.
Proof.
  intros -> Hb. unfold User_findById.
  induction before as [|b before IH]; simpl.
  - rewrite Nat.eqb_refl. reflexivity.
  - assert (E : Nat.eqb (user_id b) (user_id u) = false)
      by (apply Nat.eqb_neq, Hb; left; reflexivity).
    rewrite E. apply IH. intros x Hx. apply Hb. right. exact Hx.
Qed.

Lemma findById_absent (userId : ObjectId) (us : list User) :
  (forall u, In u us -> user_id u <> userId) ->
  User_findById userId us = None.
Proof.
  intros Hnone. unfold User_findById.
  induction us as [|u us IH]; simpl; [reflexivity|].
  assert (E : Nat.eqb (user_id u) userId = false)
    by (apply Nat.eqb_neq, Hnone; left; reflexivity).
  rewrite E. apply IH. intros x Hx. apply Hnone. right. exact Hx.
Qed.

Lemma findById_id (userId : ObjectId) (us : list User) (u : User) :
  User_findById userId us = Some u -> user_id u = userId.
Proof.
  unfold User_findById. intros H. apply find_some in H.
  destruct H as (_ & H). apply Nat.eqb_eq. exact H.
Qed.

Lemma findById_updated (userId : ObjectId) (update : User -> User)
  (us : list User) :
  (forall d, user_id (update d) = user_id d) ->
  User_findById userId (fst (updateById userId update us))
  = option_map update (User_findById userId us).
Proof.
  intros Hid. unfold User_findById.
  induction us as [|d us IH]; simpl; [reflexivity|].
  destruct (Nat.eqb (user_id d) userId) eqn:Hd; simpl.
  - rewrite Hid, Hd. reflexivity.
  - destruct (updateById userId update us) as [rest found].
    simpl in IH |- *. rewrite Hd. exact IH.
Qed.

Lemma addToSet_spec (x : string) (l : list string) :
  In x (addToSet x l)
  /\ (NoDup l -> NoDup (addToSet x l))
  /\ (forall y, In y l -> In y (addToSet x l))
  /\ addToSet x (addToSet x l) = addToSet x l.
Proof.
  unfold addToSet.
  destruct (existsb (String.eqb x) l) eqn:E.
  - rewrite E. repeat split; auto.
    apply existsb_exists in E. destruct E as (y & Hy & Hxy).
    apply String.eqb_eq in Hxy. subst y. exact Hy.
  - assert (Hnot : ~ In x l).
    { intros Hin. assert (existsb (String.eqb x) l = true).
      { apply existsb_exists. exists x. split; [exact Hin|].
        apply String.eqb_refl. }
      congruence. }
    assert (E2 : existsb (String.eqb x) (l ++ [x]) = true).
    { apply existsb_exists. exists x. split.
      - apply in_or_app. right. left. reflexivity.
      - apply String.eqb_refl. }
    rewrite E2. repeat split; auto.
    + apply in_or_app. right. left. reflexivity.
    + intros Hnd. eapply Permutation_NoDup;
        [apply Permutation_cons_append|].
      constructor; assumption.
    + intros y Hy. apply in_or_app. left. exact Hy.
Qed.

(** X19. Registering a device token for an existing user answers 200 and
    adds the token to that user's tokens unless it is there already: the
    tokens held before are kept, a duplicate-free list stays duplicate
    free, and no other user and no other field is changed. *)
Theorem register_device_adds_token (w : World) (u : User) (tok : string) :
  In u (users w) ->
  NoDup (map user_id (users w)) ->
  exists w' before after,
    registerDeviceRoute (user_id u) tok w
    = (w', Ok (mkResponse 200 true
                 (Some "Device token registered successfully"%string)
                 None None))
    /\ users w = before ++ u :: after
    /\ users w' = before ++ addDeviceToken tok u :: after
    /\ In tok (deviceTokens (addDeviceToken tok u))
    /\ (forall t, In t (deviceTokens u) ->
                  In t (deviceTokens (addDeviceToken tok u)))
    /\ (In tok (deviceTokens u) ->
        deviceTokens (addDeviceToken tok u) = deviceTokens u)
    /\ (NoDup (deviceTokens u) ->
        NoDup (deviceTokens (addDeviceToken tok u)))
    /\ locations (addDeviceToken tok u) = locations u
    /\ alertPreferences (addDeviceToken tok u) = alertPreferences u
    /\ histories w' = histories w /\ alerts w' = alerts w.
Proof.
  intros Hin Hnd.
  destruct (split_unique_user _ _ Hin Hnd) as (before & after & Hs & Hb).
  pose proof (updateById_hit (user_id u) (addDeviceToken tok) before after u
                Hb eq_refl) as Hupd.
  destruct (addToSet_spec tok (deviceTokens u)) as (A1 & A2 & A3 & _).
  eexists _, before, after. split.
  { unfold registerDeviceRoute, authenticateJwt.
    rewrite (findById_present _ before after u Hs Hb).
    unfold registerDeviceHandler, tryCatch, bind, User_findByIdAndUpdate.
    rewrite Hs, Hupd. reflexivity. }
  simpl. repeat split; auto.
  intros Hhas. unfold addToSet.
  assert (E : existsb (String.eqb tok) (deviceTokens u) = true).
  { apply existsb_exists. exists tok. split; [exact Hhas|].
    apply String.eqb_refl. }
  rewrite E. reflexivity.
Qed.

Lemma register_device_adds_token_witness :
  exists w' before after,
    registerDeviceRoute (user_id erin) "tokNew" twoUsersWorld
    = (w', Ok (mkResponse 200 true
                 (Some "Device token registered successfully"%string)
                 None None))
    /\ users twoUsersWorld = before ++ erin :: after
    /\ users w' = before ++ addDeviceToken "tokNew" erin :: after
    /\ In "tokNew"%string (deviceTokens (addDeviceToken "tokNew" erin))
    /\ (forall t, In t (deviceTokens erin) ->
                  In t (deviceTokens (addDeviceToken "tokNew" erin)))
    /\ (In "tokNew"%string (deviceTokens erin) ->
        deviceTokens (addDeviceToken "tokNew" erin) = deviceTokens erin)
    /\ (NoDup (deviceTokens erin) ->
        NoDup (deviceTokens (addDeviceToken "tokNew" erin)))
    /\ locations (addDeviceToken "tokNew" erin) = locations erin
    /\ alertPreferences (addDeviceToken "tokNew" erin)
       = alertPreferences erin
    /\ histories w' = histories twoUsersWorld
    /\ alerts w' = alerts twoUsersWorld.
Proof.
  apply (register_device_adds_token twoUsersWorld erin "tokNew").
  - simpl. right. left. reflexivity.
  - simpl. repeat constructor; simpl; intuition discriminate.
Defined.

Lemma updateById_twice (userId : ObjectId) (update : User -> User)
  (docs : list User) :
  (forall d, user_id (update d) = user_id d) ->
  (forall d, update (update d) = update d) ->
  updateById userId update (fst (updateById userId update docs))
  = updateById userId update docs.
Proof.
  intros Hid Hu. induction docs as [|d docs IH]; simpl; [reflexivity|].
  destruct (Nat.eqb (user_id d) userId) eqn:Hd.
  - simpl. rewrite Hid, Hd, Hu. reflexivity.
  - destruct (updateById userId update docs) as [rest found] eqn:E.
    simpl in IH |- *. rewrite Hd, IH. reflexivity.
Qed.

Lemma registerDeviceHandler_idempotent (userId : ObjectId) (tok : string)
  (w : World) :
  registerDeviceHandler userId tok
    (fst (registerDeviceHandler userId tok w))
  = registerDeviceHandler userId tok w.
Proof.
  unfold registerDeviceHandler, tryCatch, bind, User_findByIdAndUpdate.
  pose proof (updateById_twice userId (addDeviceToken tok) (users w)
                (fun d => eq_refl)) as H2.
  assert (Hidem : forall d, addDeviceToken tok (addDeviceToken tok d)
                            = addDeviceToken tok d).
  { intros d. unfold addDeviceToken. simpl.
    destruct (addToSet_spec tok (deviceTokens d)) as (_ & _ & _ & E).
    rewrite E. reflexivity. }
  specialize (H2 Hidem).
  destruct (updateById userId (addDeviceToken tok) (users w))
    as [docs found] eqn:E.
  simpl in H2 |- *. rewrite H2. reflexivity.
Qed.

(** X20. Registering the same device token again changes nothing more:
    the route is idempotent, for any user id and any world. *)
Theorem register_device_idempotent (userId : ObjectId) (tok : string)
  (w : World) :
  registerDeviceRoute userId tok
    (fst (registerDeviceRoute userId tok w))
  = registerDeviceRoute userId tok w.
Proof.
  unfold registerDeviceRoute, authenticateJwt.
  destruct (User_findById userId (users w)) as [u|] eqn:Hfind.
  - pose proof (findById_id _ _ _ Hfind) as Hid. rewrite Hid.
    assert (Hu : users (fst (registerDeviceHandler userId tok w))
                 = fst (updateById userId (addDeviceToken tok) (users w))).
    { unfold registerDeviceHandler, tryCatch, bind, User_findByIdAndUpdate.
      destruct (updateById userId (addDeviceToken tok) (users w));
        reflexivity. }
    rewrite Hu, (findById_updated userId (addDeviceToken tok) (users w)
                   (fun d => eq_refl)), Hfind.
    simpl. rewrite Hid. apply registerDeviceHandler_idempotent.
  - simpl. rewrite Hfind. reflexivity.
Qed.

(** X21. A register-device request whose token names an id that no user
    has (a deleted account) is turned down by the JWT strategy: the answer
    is 401, the handler does not run and nothing is stored. *)
Theorem register_device_unknown_user (userId : ObjectId) (tok : string)
  (w : World) :
  (forall u, In u (users w) -> user_id u <> userId) ->
  registerDeviceRoute userId tok w
  = (w, Ok (mkResponse 401 false (Some "Unauthorized"%string) None None)).
Proof.
  intros Hnone. unfold registerDeviceRoute, authenticateJwt.
  rewrite (findById_absent _ _ Hnone). reflexivity.
Qed.

Lemma register_device_unknown_user_witness :
  registerDeviceRoute 99 "tokNew" twoUsersWorld
  = (twoUsersWorld,
     Ok (mkResponse 401 false (Some "Unauthorized"%string) None None)).
Proof.
  apply (register_device_unknown_user 99 "tokNew" twoUsersWorld).
  intros u [<-|[<-|[]]]; simpl; discriminate.
Defined.

Lemma primaryCount_cleared (ls : list Location) :
  primaryCount
    (map (fun l => mkLocation (loc_name l) (loc_latitude l)
                     (loc_longitude l) false) ls) = 0%nat.
Proof.
  unfold primaryCount. induction ls as [|l ls IH]; simpl; auto.
Qed.

Lemma primaryCount_app (ls1 ls2 : list Location) :
  primaryCount (ls1 ++ ls2) = (primaryCount ls1 + primaryCount ls2)%nat.
Proof. unfold primaryCount. rewrite filter_app, length_app. reflexivity. Qed.

(** X22. Adding a location with a non-empty name and both coordinates to
    an existing user answers 200 with the user's new list: the location is
    appended last, so the next sweep visits it.  If it is marked primary,
    every other location of the user loses the mark and it is the only
    primary one; if not, the marks are as before.  A user with at most one
    primary location keeps at most one. *)
Theorem add_location_keeps_one_primary (w : World) (u : User)
  (name : string) (latitude longitude : num) (isPrimary : option bool) :
  In u (users w) ->
  NoDup (map user_id (users w)) ->
  name <> EmptyString ->
  let body := mkLocationBody (Some name) (Some latitude) (Some longitude)
                isPrimary in
  let newLocation := mkLocation name latitude longitude
                       (truthyBool isPrimary) in
  let u' := pushLocation newLocation
              (if truthyBool isPrimary then clearPrimary u else u) in
  exists w' before after,
    addLocationRoute (user_id u) body w
    = (w', Ok (mkResponse 200 true
                 (Some "Location added successfully"%string)
                 (Some (locations u')) None))
    /\ users w = before ++ u :: after
    /\ users w' = before ++ u' :: after
    /\ In (u', newLocation) (pairsOf (users w'))
    /\ (truthyBool isPrimary = true -> primaryCount (locations u') = 1%nat)
    /\ (truthyBool isPrimary = false ->
        locations u' = locations u ++ [newLocation]
        /\ primaryCount (locations u') = primaryCount (locations u))
    /\ ((primaryCount (locations u) <= 1)%nat ->
        (primaryCount (locations u') <= 1)%nat)
    /\ deviceTokens u' = deviceTokens u
    /\ alertPreferences u' = alertPreferences u
    /\ histories w' = histories w /\ alerts w' = alerts w.
Proof.
  intros Hin Hnd Hname body newLocation u'.
  destruct (split_unique_user _ _ Hin Hnd) as (before & after & Hs & Hb).
  assert (Hne : String.eqb name EmptyString = false)
    by (apply String.eqb_neq; exact Hname).
  exists (mkWorld (before ++ u' :: after) (histories w) (alerts w)
            (fcmRequests w) (console w) (nextId w) (clock w)),
    before, after.
  split.
  { subst body. unfold addLocationRoute, authenticateJwt.
    rewrite (findById_present _ before after u Hs Hb).
    unfold addLocationHandler, tryCatch.
    cbn [body_name body_latitude body_longitude body_isPrimary].
    rewrite Hne. subst u' newLocation.
    destruct (truthyBool isPrimary) eqn:Hp.
    - rewrite !bind_run. unfold User_updateOne at 1. rewrite Hs.
      rewrite (updateById_hit (user_id u) clearPrimary before after u Hb
                 eq_refl).
      cbn [fst]. rewrite bind_run. unfold User_findByIdAndUpdate at 1.
      cbn [users].
      rewrite (updateById_hit (user_id u) _ before after (clearPrimary u)
                 Hb eq_refl).
      reflexivity.
    - rewrite !bind_run. unfold ret at 1. rewrite bind_run.
      unfold User_findByIdAndUpdate at 1. rewrite Hs.
      rewrite (updateById_hit (user_id u) _ before after u Hb eq_refl).
      reflexivity. }
  split; [exact Hs|]. split; [reflexivity|].
  split.
  { cbn [users]. unfold pairsOf. apply in_flat_map. exists u'. split.
    - apply in_or_app. right. left. reflexivity.
    - apply in_map. subst u'. simpl. apply in_or_app. right. left.
      reflexivity. }
  subst u' newLocation.
  split.
  { intros Hp. rewrite Hp. simpl.
    rewrite primaryCount_app, primaryCount_cleared. reflexivity. }
  split.
  { intros Hp. rewrite Hp. simpl. split; [reflexivity|].
    rewrite primaryCount_app. unfold primaryCount at 2. simpl. lia. }
  split.
  { intros Hle. destruct (truthyBool isPrimary); simpl.
    - rewrite primaryCount_app, primaryCount_cleared. simpl.
      unfold primaryCount. simpl. lia.
    - rewrite primaryCount_app. unfold primaryCount at 2. simpl. lia. }
  destruct (truthyBool isPrimary); simpl; auto.
Qed.

Lemma add_location_keeps_one_primary_witness :
  let body := mkLocationBody (Some "Equator"%string) (Some (num_of_Z 0))
                (Some (num_of_Z 0)) (Some true) in
  let newLocation := mkLocation "Equator" (num_of_Z 0) (num_of_Z 0)
                       (truthyBool (Some true)) in
  let u' := pushLocation newLocation
              (if truthyBool (Some true) then clearPrimary alice
               else alice) in
  exists w' before after,
    addLocationRoute (user_id alice) body twoUsersWorld
    = (w', Ok (mkResponse 200 true
                 (Some "Location added successfully"%string)
                 (Some (locations u')) None))
    /\ users twoUsersWorld = before ++ alice :: after
    /\ users w' = before ++ u' :: after
    /\ In (u', newLocation) (pairsOf (users w'))
    /\ (truthyBool (Some true) = true ->
        primaryCount (locations u') = 1%nat)
    /\ (truthyBool (Some true) = false ->
        locations u' = locations alice ++ [newLocation]
        /\ primaryCount (locations u') = primaryCount (locations alice))
    /\ ((primaryCount (locations alice) <= 1)%nat ->
        (primaryCount (locations u') <= 1)%nat)
    /\ deviceTokens u' = deviceTokens alice
    /\ alertPreferences u' = alertPreferences alice
    /\ histories w' = histories twoUsersWorld
    /\ alerts w' = alerts twoUsersWorld.
Proof.
  apply (add_location_keeps_one_primary twoUsersWorld alice "Equator"
           (num_of_Z 0) (num_of_Z 0) (Some true)).
  - simpl. left. reflexivity.
  - simpl. repeat constructor; simpl; intuition discriminate.
  - discriminate.
Defined.

(** X23. A request to add a location without a name, with an empty name,
    or without one of the two coordinates changes nothing, whoever sends
    it: it is answered 400 for an existing user (and 401 by the JWT
    strategy when the token's user does not exist). *)
Theorem add_location_rejects_incomplete (userId : ObjectId)
  (body : LocationBody) (w : World) :
  body_name body = None \/ body_name body = Some EmptyString
  \/ body_latitude body = None \/ body_longitude body = None ->
  addLocationRoute userId body w
  = (w, Ok (match User_findById userId (users w) with
            | Some _ =>
                mkResponse 400 false
                  (Some "Name, latitude, and longitude are required"%string)
                  None None
            | None => unauthorized
            end)).
Proof.
  intros H. unfold addLocationRoute, authenticateJwt.
  destruct (User_findById userId (users w)) as [u|]; [|reflexivity].
  unfold addLocationHandler, tryCatch.
  destruct (body_name body) as [n|]; [|reflexivity].
  destruct (body_latitude body) as [la|];
    [|destruct H as [H|[H|[H|H]]]; reflexivity || discriminate].
  destruct (body_longitude body) as [lo|]; [|reflexivity].
  destruct H as [H|[H|[H|H]]]; try discriminate.
  injection H as ->. reflexivity.
Qed.

Lemma add_location_rejects_incomplete_witness :
  addLocationRoute 1
    (mkLocationBody (Some "Lake"%string) None (Some (num_of_Z 7)) None)
    twoUsersWorld
  = (twoUsersWorld,
     Ok (mkResponse 400 false
           (Some "Name, latitude, and longitude are required"%string)
           None None)).
Proof.
  apply (add_location_rejects_incomplete 1
           (mkLocationBody (Some "Lake"%string) None (Some (num_of_Z 7))
              None) twoUsersWorld).
  right. right. left. reflexivity.
Defined.

(** X24. A request to add a location whose token names an id that no
    user has is turned down by the JWT strategy, complete or not: the
    answer is 401, the handler does not run, nothing is stored and nothing
    is logged. *)
Theorem add_location_unknown_user (userId : ObjectId) (body : LocationBody)
  (w : World) :
  (forall u, In u (users w) -> user_id u <> userId) ->
  addLocationRoute userId body w
  = (w, Ok (mkResponse 401 false (Some "Unauthorized"%string) None None)).
Proof.
  intros Hnone. unfold addLocationRoute, authenticateJwt.
  rewrite (findById_absent _ _ Hnone). reflexivity.
Qed.

Lemma add_location_unknown_user_witness :
  addLocationRoute 99
    (mkLocationBody (Some "Lake"%string) (Some (num_of_Z 7))
       (Some (num_of_Z 8)) None) twoUsersWorld
  = (twoUsersWorld,
     Ok (mkResponse 401 false (Some "Unauthorized"%string) None None)).
Proof.
  apply (add_location_unknown_user 99
           (mkLocationBody (Some "Lake"%string) (Some (num_of_Z 7))
              (Some (num_of_Z 8)) None) twoUsersWorld).
  intros u [<-|[<-|[]]]; simpl; discriminate.
Defined.

Lemma sweep_all_ok_counts_witness :
  snd (checkAirQualityAndAlert calmEnv (worldOf [alice; carol])) = Ok tt
  /\ List.length
       (histories (fst (checkAirQualityAndAlert calmEnv
                          (worldOf [alice; carol]))))
     = (List.length (histories (worldOf [alice; carol]))
        + List.length (pairsOf (users (worldOf [alice; carol]))))%nat
  /\ List.length
       (alerts (fst (checkAirQualityAndAlert calmEnv
                       (worldOf [alice; carol]))))
     = (List.length (alerts (worldOf [alice; carol]))
        + List.length (filter (qualifies calmEnv)
                         (pairsOf (users (worldOf [alice; carol])))))%nat.
Proof.
  apply (sweep_all_ok_counts calmEnv (worldOf [alice; carol])).
  - intros p [<-|[<-|[<-|[]]]]; reflexivity.
  - intros m. reflexivity.
Defined.

Lemma sweep_keeps_ids_fresh_witness :
  idsFresh (fst (checkAirQualityAndAlert sampleEnv carolWorld)).
Proof.
  apply (sweep_keeps_ids_fresh sampleEnv carolWorld).
  unfold idsFresh. simpl. split; [|split].
  - repeat constructor.
  - constructor.
  - repeat constructor. simpl. tauto.
Defined.

